(** * Encap oven temperature dashboard: measurement index, range query, export

    A shallow embedding of [app.py].  The script loads four spreadsheets into
    a dictionary of pandas frames, builds [measurement_map] (column name to
    dataset name), copies the frame that owns the first selected measurement,
    coerces its [DATETIME] and [DATE] columns with [pd.to_datetime], opens a
    date picker on the span of [DATE], keeps the rows whose calendar date
    lies in the chosen closed range, draws the selected measurements, and
    serialises the kept rows as a workbook and as comma separated text.

    Part I holds the definitions: cells and frames, the pandas operations the
    script calls, the index loops (lines 155-161), the query on frame values
    and as the script runs it on a store of shared frame objects (lines
    174-224), and the export (lines 234-251) with the csv writer's quoting.
    Part II holds the properties of the index, the query and the export;
    Part III holds further properties: the order of the selector's options,
    how queries compose, the failures of the script, the shape of the text,
    and the base64 text of the images. *)

From Stdlib Require Import ZArith QArith Qround Ascii String.
From stdpp Require Import base list strings gmap pretty.

Local Open Scope string_scope.
Local Open Scope list_scope.
Local Open Scope Z_scope.

(** * Part I: definitions *)

(** ** Scalars and frames *)

(** A cell as [pd.read_excel] delivers it: an empty cell (NaN, None and NaT
    are all the null of their column), a whole number of an integer column,
    a floating-point number, a text, or a timestamp held as nanoseconds
    since the epoch. *)
Inductive cell :=
  | CNull
  | CInt (n : Z)
  | CNum (x : Q)
  | CStr (s : string)
  | CTime (ns : Z).

(** A frame: the column names in schema order and the rows in source order,
    each row carrying its index label and one cell per column. *)
Record DataFrame := mkDataFrame {
  columns : list string;
  rows : list (nat * list cell)
}.

(** Every row has exactly one cell per column. *)
Definition well_formed (df : DataFrame) : Prop :=
  Forall (λ r : nat * list cell, length r.2 = length (columns df)) (rows df).

(** What the modelled part of the script can raise. *)
Inductive error :=
  | KeyError (key : string)
  | ParserError (c : cell)
  | OutOfBoundsDatetime (c : cell)
  | AttributeError
  | TypeError
  | ValueError
  | InvalidReference.

Inductive result (A : Type) :=
  | Ok (a : A)
  | Raise (e : error).
Arguments Ok {A} a.
Arguments Raise {A} e.

#[global] Instance result_ret : MRet result := λ A a, Ok a.
#[global] Instance result_bind : MBind result := λ A B f m,
  match m with Ok a => f a | Raise e => Raise e end.

(** What this file leaves open about the libraries under the script.
    [parse_scalar c] is [pd.to_datetime] with the default [errors="raise"] on
    one text or number taken on its own: [None] when the call raises,
    [Some None] for NaT, [Some (Some ns)] for a timestamp.
    [parse_in_column s c] is the same for a cell of the column [s]: the
    format is inferred once for the column, so a cell may be rejected, or
    read differently, there.  [float_text] and [timestamp_text] are the
    texts [to_csv] writes for a floating-point number and for a timestamp;
    the flag tells whether the whole column holds dates only.  [windows]
    tells whether [os.linesep] is CR LF rather than LF.  [px_accepts df y]
    tells whether [px.line] accepts to plot the columns [y] of [df], once
    they are known to be columns of it. *)
Class Pandas := {
  parse_scalar : cell → option (option Z);
  parse_in_column : list cell → cell → option (option Z);
  float_text : Q → string;
  timestamp_text : bool → Z → string;
  windows : bool;
  px_accepts : DataFrame → list string → bool
}.

(** ** Dates *)

Definition ns_per_day : Z := 86400 * 1000000000.
Definition us_per_day : Z := 86400 * 1000000.

(** [Timestamp.date()]: the calendar day, as a day number since the epoch. *)
Definition timestamp_date (ns : Z) : Z := ns `div` ns_per_day.

(** A value returned by the date picker: a [date], or a [datetime] held as
    microseconds since the epoch. *)
Inductive pydate :=
  | PyDate (day : Z)
  | PyDateTime (us : Z).

(** Lines 189-192: [if isinstance(d, datetime): d = d.date()]. *)
Definition as_date (d : pydate) : Z :=
  match d with
  | PyDate day => day
  | PyDateTime us => us `div` us_per_day
  end.

(** ** Column operations *)

(** A timestamp is a signed 64-bit count of nanoseconds; the least value
    is kept for NaT. *)
Definition timestamp_min : Z := -9223372036854775807.
Definition timestamp_max : Z := 9223372036854775807.

Definition bounded (c : cell) (ns : Z) : result cell :=
  if decide (timestamp_min ≤ ns ≤ timestamp_max) then Ok (CTime ns)
  else Raise (OutOfBoundsDatetime c).

Definition parsed (c : cell) (r : option (option Z)) : result cell :=
  match r with
  | Some (Some ns) => bounded c ns
  | Some None => Ok CNull
  | None => Raise (ParserError c)
  end.

(** [pd.to_datetime] on one value taken on its own. *)
Definition to_datetime_scalar `{Pandas} (c : cell) : result cell :=
  match c with
  | CNull => Ok CNull
  | CTime ns => bounded c ns
  | _ => parsed c (parse_scalar c)
  end.

(** The same for a cell of a column: a value that does not convert on its
    own makes the call raise; one that does is read with the format of the
    column. *)
Definition to_datetime_cell `{Pandas} (column : list cell) (c : cell) : result cell :=
  match c with
  | CNull => Ok CNull
  | CTime ns => bounded c ns
  | _ => _ ← to_datetime_scalar c; parsed c (parse_in_column column c)
  end.

Fixpoint to_datetime_cells `{Pandas} (column s : list cell) : result (list cell) :=
  match s with
  | [] => Ok []
  | c :: s' =>
      t ← to_datetime_cell column c;
      ts ← to_datetime_cells column s';
      mret (t :: ts)
  end.

(** [pd.to_datetime(series)]: every element converts, or the call raises. *)
Definition to_datetime `{Pandas} (s : list cell) : result (list cell) :=
  to_datetime_cells s s.

(** [series.dt.date]: defined on datetime columns only; NaT stays null. *)
Fixpoint dt_date (s : list cell) : result (list (option Z)) :=
  match s with
  | [] => Ok []
  | CTime ns :: s' => ds ← dt_date s'; mret (Some (timestamp_date ns) :: ds)
  | CNull :: s' => ds ← dt_date s'; mret (None :: ds)
  | _ :: _ => Raise AttributeError
  end.

(** What [series.dt.date] returns is a column of dates, except when it has
    rows and every one is NaT: pandas then makes it a datetime column
    again. *)
Definition all_nat (s : list (option Z)) : bool :=
  match s with
  | [] => false
  | _ :: _ => forallb (λ o, match o with None => true | Some _ => false end) s
  end.

(** [dates >= d] and [dates <= d]: in a column of dates a null compares
    false; a datetime column cannot be compared with a date. *)
Definition ge_date (s : list (option Z)) (d : Z) : result (list bool) :=
  if all_nat s then Raise TypeError
  else Ok (map (λ o, match o with Some x => bool_decide (d ≤ x) | None => false end) s).

Definition le_date (s : list (option Z)) (d : Z) : result (list bool) :=
  if all_nat s then Raise TypeError
  else Ok (map (λ o, match o with Some x => bool_decide (x ≤ d) | None => false end) s).

(** [a & b] on boolean columns. *)
Definition mask_and (a b : list bool) : list bool := zip_with andb a b.

(** ** Frame operations *)

Definition column_position (df : DataFrame) (col : string) : result nat :=
  match list_find (λ c, c = col) (columns df) with
  | Some (p, _) => Ok p
  | None => Raise (KeyError col)
  end.

Definition cell_at (p : nat) (r : nat * list cell) : cell := default CNull (r.2 !! p).

(** [df[col]]. *)
Definition getitem (df : DataFrame) (col : string) : result (list cell) :=
  p ← column_position df col;
  mret (map (cell_at p) (rows df)).

(** [df[col] = s]: replaces the column when it exists, appends it otherwise;
    the lengths must agree. *)
Definition setitem (df : DataFrame) (col : string) (s : list cell) : result DataFrame :=
  if decide (length s = length (rows df)) then
    match list_find (λ c, c = col) (columns df) with
    | Some (p, _) =>
        Ok (mkDataFrame (columns df)
              (zip_with (λ (r : nat * list cell) v, (r.1, <[p:=v]> r.2)) (rows df) s))
    | None =>
        Ok (mkDataFrame (columns df ++ [col])
              (zip_with (λ (r : nat * list cell) v, (r.1, r.2 ++ [v])) (rows df) s))
    end
  else Raise ValueError.

(** The rows at the true positions of a mask, in order. *)
Fixpoint select {A} (mask : list bool) (xs : list A) : list A :=
  match mask, xs with
  | b :: mask', x :: xs' => if b then x :: select mask' xs' else select mask' xs'
  | _, _ => []
  end.

(** [df[mask]]. *)
Definition select_rows (df : DataFrame) (mask : list bool) : result DataFrame :=
  if decide (length mask = length (rows df)) then
    Ok (mkDataFrame (columns df) (select mask (rows df)))
  else Raise ValueError.

(** ** The measurement index *)

Definition exclude_cols : list string := ["DATETIME"; "CW"; "DATE"; "LCL"; "UCL"].

(** The inner loop: [for col in df.columns: if col not in exclude_cols:
    measurement_map[col] = name]. *)
Definition index_columns (name : string) (cols : list string)
    (m : gmap string string) : gmap string string :=
  foldl (λ m col, if decide (col ∈ exclude_cols) then m else <[col:=name]> m) m cols.

(** The outer loop over [datasets.items()], in insertion order. *)
Definition index_datasets (datasets : list (string * DataFrame))
    (m : gmap string string) : gmap string string :=
  foldl (λ m (item : string * DataFrame), index_columns item.1 (columns item.2) m) m datasets.

Definition build_measurement_map (datasets : list (string * DataFrame)) : gmap string string :=
  index_datasets datasets ∅.

(** [datasets[name]]. *)
Fixpoint dict_get {V} (d : list (string * V)) (key : string) : result V :=
  match d with
  | [] => Raise (KeyError key)
  | (k, v) :: d' => if decide (k = key) then Ok v else dict_get d' key
  end.

(** [measurement_map[key]]. *)
Definition map_get (m : gmap string string) (key : string) : result string :=
  match m !! key with
  | Some v => Ok v
  | None => Raise (KeyError key)
  end.

(** ** The range query on frame values *)

(** Lines 177-178 on a frame value. *)
Definition coerce_timestamps `{Pandas} (df : DataFrame) : result DataFrame :=
  s ← getitem df "DATETIME";
  s' ← to_datetime s;
  df1 ← setitem df "DATETIME" s';
  d ← getitem df1 "DATE";
  d' ← to_datetime d;
  setitem df1 "DATE" d'.

(** The mask of line 199, left operand first. *)
Definition date_mask (df : DataFrame) (start_date end_date : Z) : result (list bool) :=
  d1 ← getitem df "DATE";
  a ← dt_date d1;
  after_start ← ge_date a start_date;
  d2 ← getitem df "DATE";
  b ← dt_date d2;
  before_end ← le_date b end_date;
  mret (mask_and after_start before_end).

(** Line 199. *)
Definition filter_range (df : DataFrame) (start_date end_date : Z) : result DataFrame :=
  mask ← date_mask df start_date end_date;
  select_rows df mask.

Definition range_query `{Pandas} (df : DataFrame) (start_date end_date : pydate)
    : result DataFrame :=
  df' ← coerce_timestamps df;
  filter_range df' (as_date start_date) (as_date end_date).

(** The date predicate in words: the [DATE] cell of the row is a timestamp
    whose calendar day lies in the closed range. *)
Definition date_in_range (start_day end_day : Z) (c : cell) : bool :=
  match c with
  | CTime ns => bool_decide (start_day ≤ timestamp_date ns ≤ end_day)
  | _ => false
  end.

Definition row_in_range (df : DataFrame) (start_day end_day : Z) (r : nat * list cell) : bool :=
  match column_position df "DATE" with
  | Ok p => date_in_range start_day end_day (cell_at p r)
  | Raise _ => false
  end.

(** A cell of a datetime column, and its calendar day when it has one. *)
Definition datetime_like (c : cell) : bool :=
  match c with
  | CNull => true
  | CTime ns => bool_decide (timestamp_min ≤ ns ≤ timestamp_max)
  | _ => false
  end.

Definition cell_date (c : cell) : option Z :=
  match c with
  | CTime ns => Some (timestamp_date ns)
  | _ => None
  end.

Definition is_timestamp (c : cell) : bool :=
  match c with
  | CTime _ => true
  | _ => false
  end.

(** The frame has no rows, or a row whose [DATE] is a timestamp. *)
Definition has_dates (df : DataFrame) : Prop :=
  rows df = [] ∨
  ∃ p r, column_position df "DATE" = Ok p ∧ r ∈ rows df ∧ is_timestamp (cell_at p r).

(** ** The default range of the picker *)

(** The timestamps of a datetime column; NaT is skipped. *)
Definition timestamps (s : list cell) : list Z :=
  omap (λ c, match c with CTime ns => Some ns | _ => None end) s.

(** [series.min()] and [series.max()] on a datetime column: the least and
    the greatest timestamp, NaT ([None]) when the column has none. *)
Definition series_min (s : list cell) : option Z :=
  match timestamps s with
  | [] => None
  | t :: ts => Some (foldr Z.min t ts)
  end.

Definition series_max (s : list cell) : option Z :=
  match timestamps s with
  | [] => None
  | t :: ts => Some (foldr Z.max t ts)
  end.

(** Lines 181-187: [st.date_input] opens on the span from [df["DATE"].min()]
    to [df["DATE"].max()].  It raises ValueError when the bounds are NaT,
    that is when the column has no timestamp. *)
Definition date_input (s : list cell) : result (pydate * pydate) :=
  match series_min s, series_max s with
  | Some lo, Some hi => Ok (PyDate (timestamp_date lo), PyDate (timestamp_date hi))
  | _, _ => Raise ValueError
  end.

(** The two dates the picker returns when it is left as it opens. *)
Definition default_range (df : DataFrame) : result (pydate * pydate) :=
  d ← getitem df "DATE";
  date_input d.

(** ** The chart *)

(** [df.empty] (line 201): true when the frame has no rows or no columns. *)
Definition df_empty (df : DataFrame) : bool :=
  match rows df, columns df with
  | [], _ | _, [] => true
  | _, _ => false
  end.

(** Lines 201-224: no chart and a warning ([false]) for an empty view;
    otherwise [px.line] with the selected measurements as [y], which raises
    ValueError when one of them is not a column of the view or when it
    cannot plot them together.  The two overlays are added only when their
    column is there and raise nothing. *)
Definition draw_chart `{Pandas} (df : DataFrame) (selected_measures : list string)
    : result bool :=
  if df_empty df then Ok false
  else if forallb (λ y, bool_decide (y ∈ columns df)) selected_measures
          && px_accepts df selected_measures
       then Ok true
       else Raise ValueError.

(** ** The script on a store of frame objects *)

(** Python variables hold references: [datasets] maps a name to a frame
    object, and an assignment into a frame is visible through every
    reference to it.  The store maps object identities to frame values. *)
Abbreviation store := (gmap nat DataFrame).

Definition script (A : Type) : Type := store → result A * store.

#[global] Instance script_ret : MRet script := λ A a σ, (Ok a, σ).
#[global] Instance script_bind : MBind script := λ A B f m σ,
  match m σ with
  | (Ok a, σ') => f a σ'
  | (Raise e, σ') => (Raise e, σ')
  end.

Definition lift {A} (r : result A) : script A := λ σ, (r, σ).

Definition deref (l : nat) : script DataFrame := λ σ,
  match σ !! l with
  | Some df => (Ok df, σ)
  | None => (Raise InvalidReference, σ)
  end.

(** A new object, at an identity no live object has. *)
Definition alloc (df : DataFrame) : script nat := λ σ,
  let l := fresh (dom σ) in (Ok l, <[l:=df]> σ).

Definition assign (l : nat) (df : DataFrame) : script unit := λ σ, (Ok tt, <[l:=df]> σ).

(** [df.copy()]. *)
Definition df_copy (l : nat) : script nat :=
  df ← deref l; alloc df.

(** [df[col]] through a reference. *)
Definition df_getitem (l : nat) (col : string) : script (list cell) :=
  df ← deref l; lift (getitem df col).

(** [df[col] = s] through a reference: the object itself changes. *)
Definition df_setitem (l : nat) (col : string) (s : list cell) : script unit :=
  df ← deref l;
  df' ← lift (setitem df col s);
  assign l df'.

(** [df[mask]] through a reference: the result is a new object. *)
Definition df_select (l : nat) (mask : list bool) : script nat :=
  df ← deref l;
  df' ← lift (select_rows df mask);
  alloc df'.

(** ** Export *)

(** The content of the workbook [to_excel] writes: one sheet, the header and
    the rows without the index.  The bytes of the container are not
    modelled. *)
Record worksheet := mkWorksheet {
  title : string;
  header : list string;
  body : list (list cell)
}.

Definition to_excel (dataframe : DataFrame) : worksheet :=
  mkWorksheet "FilteredData" (columns dataframe) (map snd (rows dataframe)).

(** The csv writer with the defaults [to_csv] passes: comma, double quote,
    doubled quotes inside a quoted field, minimal quoting, [os.linesep] at
    the end of a record. *)
Definition delimiter : ascii := ","%char.
Definition quotechar : ascii := "034"%char.
Definition LF : ascii := "010"%char.
Definition CR : ascii := "013"%char.

Definition lineterminator `{Pandas} : list ascii :=
  if windows then [CR; LF] else [LF].

(** Minimal quoting: a field is quoted when it holds the delimiter, the
    quote character or a character of the line terminator.  Where the line
    terminator is LF alone, a carriage return does not make a field
    quoted. *)
Definition special `{Pandas} (c : ascii) : bool :=
  bool_decide (c ∈ delimiter :: quotechar :: lineterminator).

Fixpoint escape (s : list ascii) : list ascii :=
  match s with
  | [] => []
  | c :: s' =>
      if decide (c = quotechar) then quotechar :: quotechar :: escape s'
      else c :: escape s'
  end.

Definition write_field `{Pandas} (f : string) : list ascii :=
  let s := list_ascii_of_string f in
  if existsb special s then quotechar :: escape s ++ [quotechar] else s.

Fixpoint join_fields (fs : list (list ascii)) : list ascii :=
  match fs with
  | [] => []
  | [f] => f
  | f :: fs' => f ++ delimiter :: join_fields fs'
  end.

(** One record; a record made of a single empty field is written quoted. *)
Definition write_row `{Pandas} (fs : list string) : list ascii :=
  match fs with
  | [EmptyString] => [quotechar; quotechar]
  | _ => join_fields (map write_field fs)
  end ++ lineterminator.

(** Whether column [p] holds dates only (no time of day anywhere). *)
Definition dates_only (df : DataFrame) (p : nat) : bool :=
  forallb (λ r : nat * list cell,
    match r.2 !! p with
    | Some (CTime ns) => bool_decide (ns `mod` ns_per_day = 0)
    | _ => true
    end) (rows df).

(** The text written for a cell of column [p]: a null is the empty text, a
    whole number its decimal digits. *)
Definition cell_text `{Pandas} (df : DataFrame) (p : nat) (c : cell) : string :=
  match c with
  | CNull => EmptyString
  | CInt n => pretty n
  | CNum x => float_text x
  | CStr s => s
  | CTime ns => timestamp_text (dates_only df p) ns
  end.

(** The header and the rows as texts, without the index ([index=False]). *)
Definition text_rows `{Pandas} (df : DataFrame) : list (list string) :=
  columns df :: map (λ r : nat * list cell, imap (cell_text df) r.2) (rows df).

(** [df.to_csv(index=False)].  Texts are held as their UTF-8 bytes. *)
Definition to_csv `{Pandas} (df : DataFrame) : string :=
  string_of_list_ascii (concat (map write_row (text_rows df))).

(** [.encode("utf-8")]. *)
Definition encode_utf8 (s : string) : list Byte.byte := list_byte_of_string s.

(** ** Reading the text back *)

(** The reader of the same dialect, character by character: the decoder the
    round trip is stated against.  A line ends at LF, at CR, or at CR LF. *)

Inductive mode := Start | Unquoted | Quoted | QuoteSeen | EatLF.

(** The reader: the mode, the field read so far (reversed), the fields of
    the record read so far (reversed), the finished records (reversed). *)
Record reader := mkReader {
  rmode : mode;
  rfield : list ascii;
  rrecord : list string;
  rdone : list (list string)
}.

Definition field_text (fld : list ascii) : string := string_of_list_ascii (rev fld).

Definition end_field (rd : reader) : reader :=
  mkReader Start [] (field_text (rfield rd) :: rrecord rd) (rdone rd).

(** A line end: a line with nothing on it is the empty record. *)
Definition end_record (rd : reader) (c : ascii) : reader :=
  let fields :=
    match rmode rd, rrecord rd with
    | Start, [] => []
    | _, _ => rev (field_text (rfield rd) :: rrecord rd)
    end in
  mkReader (if decide (c = CR) then EatLF else Start) [] [] (fields :: rdone rd).

Definition add_char (rd : reader) (m : mode) (c : ascii) : reader :=
  mkReader m (c :: rfield rd) (rrecord rd) (rdone rd).

Definition set_mode (rd : reader) (m : mode) : reader :=
  mkReader m (rfield rd) (rrecord rd) (rdone rd).

Definition step_start (rd : reader) (c : ascii) : reader :=
  if decide (c = quotechar) then set_mode rd Quoted
  else if decide (c = delimiter) then end_field rd
  else if decide (c = LF ∨ c = CR) then end_record rd c
  else add_char rd Unquoted c.

Definition step (rd : reader) (c : ascii) : reader :=
  match rmode rd with
  | Start => step_start rd c
  | EatLF => if decide (c = LF) then set_mode rd Start else step_start (set_mode rd Start) c
  | Unquoted =>
      if decide (c = delimiter) then end_field rd
      else if decide (c = LF ∨ c = CR) then end_record rd c
      else add_char rd Unquoted c
  | Quoted =>
      if decide (c = quotechar) then set_mode rd QuoteSeen
      else add_char rd Quoted c
  | QuoteSeen =>
      if decide (c = quotechar) then add_char rd Quoted c
      else if decide (c = delimiter) then end_field rd
      else if decide (c = LF ∨ c = CR) then end_record rd c
      else add_char rd Unquoted c
  end.

(** At the end of the text an unfinished record is closed. *)
Definition finish (rd : reader) : list (list string) :=
  match rmode rd, rrecord rd with
  | Start, [] | EatLF, _ => rev (rdone rd)
  | _, _ => rev (rev (field_text (rfield rd) :: rrecord rd) :: rdone rd)
  end.

Definition read_csv (text : list ascii) : list (list string) :=
  finish (foldl step (mkReader Start [] [] []) text).

Definition decode_csv (data : list Byte.byte) : list (list string) :=
  read_csv (list_ascii_of_string (string_of_list_byte data)).

(** ** The query as the script runs it *)

(** The chart of the frame behind a reference. *)
Definition chart `{Pandas} (l : nat) (selected_measures : list string) : script bool :=
  df ← deref l; lift (draw_chart df selected_measures).

Definition export_excel (l : nat) : script worksheet :=
  df ← deref l; mret (to_excel df).

Definition export_csv `{Pandas} (l : nat) : script (list Byte.byte) :=
  df ← deref l; mret (encode_utf8 (to_csv df)).

(** Lines 174-251: nothing to do without a selection; otherwise the frame
    of the first selected measurement is copied and coerced, the date
    picker opens on the span of its [DATE] column (and raises when there is
    none), the rows in the picked range are selected, the chart of all the
    selected measurements is drawn unless the view is empty, and the
    workbook and the text are made.  The two dates are those the picker
    returns. *)
Definition run_query `{Pandas} (measurement_map : gmap string string)
    (datasets : list (string * nat)) (selected_measures : list string)
    (start_date end_date : pydate) : script (option (nat * worksheet * list Byte.byte)) :=
  match selected_measures with
  | [] => mret None
  | first :: _ =>
      dataset_name ← lift (map_get measurement_map first);
      stored ← lift (dict_get datasets dataset_name);
      df ← df_copy stored;
      s ← df_getitem df "DATETIME";
      s' ← lift (to_datetime s);
      _ ← df_setitem df "DATETIME" s';
      d ← df_getitem df "DATE";
      d' ← lift (to_datetime d);
      _ ← df_setitem df "DATE" d';
      bounds ← df_getitem df "DATE";
      _ ← lift (date_input bounds);
      d1 ← df_getitem df "DATE";
      a ← lift (dt_date d1);
      after_start ← lift (ge_date a (as_date start_date));
      d2 ← df_getitem df "DATE";
      b ← lift (dt_date d2);
      before_end ← lift (le_date b (as_date end_date));
      view ← df_select df (mask_and after_start before_end);
      _ ← chart view selected_measures;
      excel_data ← export_excel view;
      csv_data ← export_csv view;
      mret (Some (view, excel_data, csv_data))
  end.

(** ** Two notions used by the proofs *)

(** The reader after the text of one field, read from the start of a field. *)
Definition after_field `{Pandas} (f : string) (rec : list string) (out : list (list string)) : reader :=
  let s := list_ascii_of_string f in
  if existsb special s then mkReader QuoteSeen (rev s) rec out
  else match s with
       | [] => mkReader Start [] rec out
       | _ => mkReader Unquoted (rev s) rec out
       end.

(** [keeps σ0 m Q]: run from any store that holds the objects of [σ0] as
    they are, [m] leaves them as they are, and a value it returns satisfies
    [Q]. *)
Definition keeps {A} (σ0 : store) (m : script A) (Q : A → Prop) : Prop :=
  ∀ σ, σ0 ⊆ σ → σ0 ⊆ (m σ).2 ∧ ∀ a, (m σ).1 = Ok a → Q a.

(** A text the reader gets back as one field: where the line terminator is
    LF alone, it holds no carriage return. *)
Definition reads_back `{Pandas} (f : string) : Prop :=
  windows = false → CR ∉ list_ascii_of_string f.

(** ** An instance and sample data, to run the definitions *)

Definition two_digits (n : Z) : string :=
  if decide (n < 10) then "0" +:+ pretty n else pretty n.

(** Year, month and day of a day number (proleptic Gregorian calendar). *)
Definition civil_from_days (day : Z) : Z * Z * Z :=
  let z := day + 719468 in
  let era := z `div` 146097 in
  let doe := z - era * 146097 in
  let yoe := (doe - doe `div` 1460 + doe `div` 36524 - doe `div` 146096) `div` 365 in
  let doy := doe - (365 * yoe + yoe `div` 4 - yoe `div` 100) in
  let mp := (5 * doy + 2) `div` 153 in
  let d := doy - (153 * mp + 2) `div` 5 + 1 in
  let m := if decide (mp < 10) then mp + 3 else mp - 9 in
  let y := yoe + era * 400 + (if decide (m ≤ 2) then 1 else 0) in
  (y, m, d).

Definition iso_date (day : Z) : string :=
  let '(y, m, d) := civil_from_days day in
  pretty y +:+ "-" +:+ two_digits m +:+ "-" +:+ two_digits d.

Definition iso_time (ns_of_day : Z) : string :=
  let s := ns_of_day `div` 1000000000 in
  two_digits (s `div` 3600) +:+ ":" +:+ two_digits ((s `div` 60) `mod` 60)
    +:+ ":" +:+ two_digits (s `mod` 60).

(** The instance used by the examples: no text is read as a date except the
    empty text, which is NaT; a number is taken as nanoseconds since the
    epoch, in a column as on its own; floating-point numbers are written
    with one decimal and timestamps in ISO form to the second; lines end as
    on POSIX; every chart of columns of the frame is accepted. *)
Definition sample_parse (c : cell) : option (option Z) :=
  match c with
  | CStr EmptyString => Some None
  | CInt n => Some (Some n)
  | CNum x => Some (Some (Qfloor x))
  | _ => None
  end.

Definition sample_pandas : Pandas := {|
  parse_scalar := sample_parse;
  parse_in_column := λ _, sample_parse;
  float_text := λ x, pretty (Qfloor x) +:+ ".0";
  timestamp_text := λ only_dates ns,
    if only_dates then iso_date (timestamp_date ns)
    else iso_date (timestamp_date ns) +:+ " " +:+ iso_time (ns `mod` ns_per_day);
  windows := false;
  px_accepts := λ _ _, true
|}.

(** Day number of a day of January 2025. *)
Definition january_2025 (d : Z) : Z := 20088 + d.

Definition reading (label : nat) (d : Z) (a b : Z) : nat * list cell :=
  (label, [CTime (january_2025 d * ns_per_day + 8 * 3600 * 1000000000);
           CTime (january_2025 d * ns_per_day);
           CNum (inject_Z a); CNum (inject_Z b);
           CNum (inject_Z 170); CNum (inject_Z 180)]).

(** Five readings, 2025-01-01 to 2025-01-05. *)
Definition dataset1 : DataFrame :=
  mkDataFrame ["DATETIME"; "DATE"; "OvenA"; "OvenB"; "LCL"; "UCL"]
    [reading 0 1 175 176; reading 1 2 174 177; reading 2 3 176 175;
     reading 3 4 175 175; reading 4 5 173 178].

(** A frame whose third [DATE] cell is a remark instead of a date. *)
Definition dataset_bad : DataFrame :=
  mkDataFrame ["DATETIME"; "DATE"; "OvenC"]
    [(0%nat, [CTime (january_2025 1 * ns_per_day); CTime (january_2025 1 * ns_per_day); CNum (inject_Z 150)]);
     (1%nat, [CTime (january_2025 2 * ns_per_day); CTime (january_2025 2 * ns_per_day); CNum (inject_Z 151)]);
     (2%nat, [CTime (january_2025 3 * ns_per_day); CStr "oven offline"; CNull])].

(** A frame whose readings were logged without a date. *)
Definition dataset_undated : DataFrame :=
  mkDataFrame ["DATETIME"; "DATE"; "OvenD"]
    [(0%nat, [CTime (january_2025 1 * ns_per_day + 8 * 3600 * 1000000000); CNull; CNum (inject_Z 160)]);
     (1%nat, [CTime (january_2025 1 * ns_per_day + 9 * 3600 * 1000000000); CNull; CNum (inject_Z 161)])].

(** A view with a remark that holds a carriage return. *)
Definition remark_with_CR : string := String "a" (String CR (String "b" EmptyString)).

Definition dataset_remark : DataFrame :=
  mkDataFrame ["OvenA"; "Remark"] [(0%nat, [CInt 174; CStr remark_with_CR])].

(** Three frames that all have a column [OvenA]. *)
Definition frame_of (cols : list string) : DataFrame := mkDataFrame cols [].

Definition three_datasets : list (string * DataFrame) :=
  [("dataset1", frame_of ["DATETIME"; "DATE"; "OvenA"]);
   ("dataset2", frame_of ["DATETIME"; "CW"; "DATE"; "OvenA"; "OvenB"]);
   ("dataset3", frame_of ["DATETIME"; "DATE"; "OvenA"; "LCL"; "UCL"])].

(** A session with [dataset1] stored at object 0. *)
Definition sample_store : store := {[ 0%nat := dataset1 ]}.
Definition sample_datasets : list (string * nat) := [("dataset1", 0%nat)].

(** ** The index as the ordered dictionary it is *)

(** [d[key] = v] on a dictionary that keeps insertion order: an existing key
    keeps its place and takes the new value, a new key goes to the end. *)
Fixpoint dict_set {V} (d : list (string * V)) (key : string) (v : V) : list (string * V) :=
  match d with
  | [] => [(key, v)]
  | (k, x) :: d' =>
      if decide (k = key) then (k, v) :: d' else (k, x) :: dict_set d' key v
  end.

(** Lines 158-161 on that dictionary. *)
Definition ordered_index_columns (name : string) (cols : list string)
    (d : list (string * string)) : list (string * string) :=
  foldl (λ d col, if decide (col ∈ exclude_cols) then d else dict_set d col name) d cols.

Definition ordered_measurement_map (datasets : list (string * DataFrame))
    : list (string * string) :=
  foldl (λ d (item : string * DataFrame), ordered_index_columns item.1 (columns item.2) d)
    [] datasets.

(** Line 171: [options=list(measurement_map.keys())]. *)
Definition options (datasets : list (string * DataFrame)) : list string :=
  map fst (ordered_measurement_map datasets).

(** The non-reserved column names of all datasets, in load order and schema
    order, with repetitions. *)
Definition measurement_columns (datasets : list (string * DataFrame)) : list string :=
  filter (λ col, col ∉ exclude_cols)
    (concat (map (λ item : string * DataFrame, columns item.2) datasets)).

(** ** Base64 of a file (lines 34-37, and 86-87 for the loader image) *)

Definition b64_alphabet : list ascii :=
  list_ascii_of_string "ABCDEFGHIJKLMNOPQRSTUVWXYZabcdefghijklmnopqrstuvwxyz0123456789+/".

Definition b64_pad : ascii := "="%char.

Definition b64_char (sextet : Z) : ascii :=
  default b64_pad (b64_alphabet !! Z.to_nat sextet).

Definition byte_value (b : Byte.byte) : Z := Z.of_N (Byte.to_N b).

(** [base64.b64encode]: each group of three bytes gives four characters of
    six bits each; a last group of one or two bytes is padded with [=]. *)
Fixpoint b64_chars (data : list Byte.byte) : list ascii :=
  match data with
  | [] => []
  | [a] =>
      let x := byte_value a in
      [b64_char (x `div` 4); b64_char (x `mod` 4 * 16); b64_pad; b64_pad]
  | [a; b] =>
      let x := byte_value a in
      let y := byte_value b in
      [b64_char (x `div` 4); b64_char (x `mod` 4 * 16 + y `div` 16);
       b64_char (y `mod` 16 * 4); b64_pad]
  | a :: b :: c :: rest =>
      let x := byte_value a in
      let y := byte_value b in
      let z := byte_value c in
      b64_char (x `div` 4) :: b64_char (x `mod` 4 * 16 + y `div` 16)
      :: b64_char (y `mod` 16 * 4 + z `div` 64) :: b64_char (z `mod` 64)
      :: b64_chars rest
  end.

(** [base64.b64encode(data).decode()]. *)
Definition b64encode (data : list Byte.byte) : string :=
  string_of_list_ascii (b64_chars data).

(** Lines 34-37.  The files the script can open are a map from path to
    content; [None] stands for the error [open] raises on a missing file. *)
Definition get_base64_of_bin_file (files : gmap string (list Byte.byte))
    (bin_file : string) : option string :=
  data ← files !! bin_file; Some (b64encode data).

(** The decoder of the same alphabet, to state the round trip. *)
Definition b64_value (c : ascii) : option Z :=
  (λ found : nat * ascii, Z.of_nat found.1) <$> list_find (λ x, x = c) b64_alphabet.

Definition byte_of_value (v : Z) : option Byte.byte := Byte.of_N (Z.to_N v).

Fixpoint b64_bytes (s : list ascii) : option (list Byte.byte) :=
  match s with
  | [] => Some []
  | c1 :: c2 :: c3 :: c4 :: rest =>
      s1 ← b64_value c1;
      s2 ← b64_value c2;
      a ← byte_of_value (s1 * 4 + s2 `div` 16);
      if decide (c4 = b64_pad) then
        match rest with
        | [] =>
            if decide (c3 = b64_pad) then Some [a]
            else
              s3 ← b64_value c3;
              b ← byte_of_value (s2 `mod` 16 * 16 + s3 `div` 4);
              Some [a; b]
        | _ :: _ => None
        end
      else
        s3 ← b64_value c3;
        s4 ← b64_value c4;
        b ← byte_of_value (s2 `mod` 16 * 16 + s3 `div` 4);
        c ← byte_of_value (s3 `mod` 4 * 64 + s4);
        tail ← b64_bytes rest;
        Some (a :: b :: c :: tail)
  | _ => None
  end.

Definition b64decode (s : string) : option (list Byte.byte) :=
  b64_bytes (list_ascii_of_string s).

(** A directory with a four byte file, to run the definitions. *)
Definition sample_files : gmap string (list Byte.byte) :=
  {[ "logo.png" := [Byte.x89; Byte.x50; Byte.x4e; Byte.x47] ]}.

(** * Part II: properties *)

(** ** The measurement index *)

Lemma index_columns_lookup (name : string) (cols : list string)
    (m : gmap string string) (C : string) :
  index_columns name cols m !! C =
    if decide (C ∈ cols ∧ C ∉ exclude_cols) then Some name else m !! C.
Proof.
  unfold index_columns. revert m. induction cols as [|c cols IH]; intros m.
  - rewrite decide_False; [done|]. intros [H _]. by apply elem_of_nil in H.
  - cbn [foldl]. rewrite IH.
    destruct (decide (C ∈ cols ∧ C ∉ exclude_cols)) as [[H1 H2]|H].
    + rewrite decide_True; [done|]. split; [by right|done].
    + destruct (decide (c ∈ exclude_cols)) as [Hc|Hc].
      * rewrite decide_False; [done|]. intros [H1 H2].
        apply elem_of_cons in H1 as [->|H1]; tauto.
      * destruct (decide (c = C)) as [->|Hne].
        -- rewrite lookup_insert_eq, decide_True; [done|]. split; [by left|done].
        -- rewrite lookup_insert_ne by done. rewrite decide_False; [done|].
           intros [H1 H2]. apply elem_of_cons in H1 as [->|H1]; tauto.
Qed.

Lemma index_datasets_cons (item : string * DataFrame)
    (ds : list (string * DataFrame)) (m : gmap string string) :
  index_datasets (item :: ds) m = index_datasets ds (index_columns item.1 (columns item.2) m).
Proof. done. Qed.

Lemma index_datasets_app (ds1 ds2 : list (string * DataFrame)) (m : gmap string string) :
  index_datasets (ds1 ++ ds2) m = index_datasets ds2 (index_datasets ds1 m).
Proof. unfold index_datasets. by rewrite foldl_app. Qed.

(** Datasets that do not have the column leave its entry alone. *)
Lemma index_datasets_absent (ds : list (string * DataFrame)) (m : gmap string string)
    (C : string) :
  (∀ item, item ∈ ds → C ∉ columns item.2) →
  index_datasets ds m !! C = m !! C.
Proof.
  revert m. induction ds as [|item ds IH]; intros m Habs; [done|].
  rewrite index_datasets_cons, IH.
  - rewrite index_columns_lookup, decide_False; [done|].
    intros [H _]. by apply (Habs item); [left|].
  - intros item' Hin. apply Habs. by right.
Qed.

(** A reserved name is never written. *)
Lemma index_datasets_reserved (ds : list (string * DataFrame)) (m : gmap string string)
    (C : string) :
  C ∈ exclude_cols → index_datasets ds m !! C = m !! C.
Proof.
  intros Hres. revert m. induction ds as [|item ds IH]; intros m; [done|].
  rewrite index_datasets_cons, IH, index_columns_lookup, decide_False; [done|]. tauto.
Qed.

(** An entry present before the loops stays a key. *)
Lemma index_datasets_keeps_keys (ds : list (string * DataFrame)) (m : gmap string string)
    (C : string) :
  is_Some (m !! C) → is_Some (index_datasets ds m !! C).
Proof.
  revert m. induction ds as [|item ds IH]; intros m Hm; [done|].
  rewrite index_datasets_cons. apply IH. rewrite index_columns_lookup.
  by destruct (decide _).
Qed.

(** Every value written by the loops is the name of an item. *)
Lemma index_datasets_values (ds : list (string * DataFrame)) (m : gmap string string)
    (C v : string) :
  index_datasets ds m !! C = Some v →
  m !! C = Some v ∨ ∃ df, (v, df) ∈ ds ∧ C ∈ columns df ∧ C ∉ exclude_cols.
Proof.
  revert m. induction ds as [|[n df] ds IH]; intros m Hv; [by left|].
  rewrite index_datasets_cons in Hv.
  apply IH in Hv as [Hv|(df' & Hin & Hc)].
  - rewrite index_columns_lookup in Hv. cbn [fst snd] in Hv.
    destruct (decide (C ∈ columns df ∧ C ∉ exclude_cols)) as [H|H]; [|by left].
    injection Hv as <-. right. exists df. split; [left|done].
  - right. exists df'. split; [by right|done].
Qed.

Lemma dict_get_elem_of {V} (d : list (string * V)) (k : string) (v : V) :
  (k, v) ∈ d → ∃ v', dict_get d k = Ok v'.
Proof.
  induction d as [|[k0 v0] d IH]; intros Hin; [by apply elem_of_nil in Hin|].
  simpl. case_decide; [by eexists|].
  apply elem_of_cons in Hin as [Heq|Hin]; [congruence|by apply IH].
Qed.

(** C2 as stated fails: with three datasets that share a column, the pair of
    positions 0 and 1 does not resolve to position 1. *)
Lemma last_write_wins_pairwise_counterexample :
  ¬ (∀ (datasets : list (string * DataFrame)) (i j : nat) (ni nj : string)
       (dfi dfj : DataFrame) (C : string),
       (i < j)%nat →
       datasets !! i = Some (ni, dfi) → datasets !! j = Some (nj, dfj) →
       C ∈ columns dfi → C ∈ columns dfj → C ∉ exclude_cols →
       build_measurement_map datasets !! C = Some nj).
Proof.
  intros Hclaim.
  specialize (Hclaim three_datasets 0%nat 1%nat _ _ _ _ "OvenA" ltac:(lia) eq_refl eq_refl).
  assert (build_measurement_map three_datasets !! "OvenA" = Some "dataset2") as Hbad.
  { apply Hclaim; [set_solver | set_solver | compute_done]. }
  vm_compute in Hbad. discriminate.
Qed.

(** C2, amended: when column [C], not reserved, is in the schemas of the
    datasets at positions [i < j] and in no schema after position [j], the
    index maps [C] to the name of the dataset at position [j]. *)
Theorem last_write_wins (datasets : list (string * DataFrame)) (i j : nat)
    (ni nj : string) (dfi dfj : DataFrame) (C : string) :
  (i < j)%nat →
  datasets !! i = Some (ni, dfi) → datasets !! j = Some (nj, dfj) →
  C ∈ columns dfi → C ∈ columns dfj → C ∉ exclude_cols →
  (∀ k nk dfk, (j < k)%nat → datasets !! k = Some (nk, dfk) → C ∉ columns dfk) →
  build_measurement_map datasets !! C = Some nj.
Proof.
  intros _ _ Hj _ HCj Hres Hlater. unfold build_measurement_map.
  rewrite <- (take_drop_middle datasets j (nj, dfj) Hj).
  rewrite index_datasets_app, index_datasets_cons, index_datasets_absent.
  - rewrite index_columns_lookup, decide_True; done.
  - intros [nk dfk] Hin. apply list_elem_of_lookup in Hin as [k Hk].
    rewrite lookup_drop in Hk. by apply (Hlater (S j + k)%nat nk dfk); [lia|].
Qed.

Lemma last_write_wins_witness :
  build_measurement_map three_datasets !! "OvenA" = Some "dataset3".
Proof.
  apply (last_write_wins three_datasets 1 2 "dataset2" "dataset3"
           (frame_of ["DATETIME"; "CW"; "DATE"; "OvenA"; "OvenB"])
           (frame_of ["DATETIME"; "DATE"; "OvenA"; "LCL"; "UCL"]) "OvenA").
  - lia.
  - reflexivity.
  - reflexivity.
  - compute_done.
  - compute_done.
  - compute_done.
  - intros k nk dfk Hk Hlook. destruct k as [|[|[|k]]]; [lia..|]. discriminate.
Defined.

(** C3: every non-reserved column of every dataset is a key of the index,
    and no reserved name is a key. *)
Theorem index_complete_reserved_excluded (datasets : list (string * DataFrame)) :
  (∀ name df C, (name, df) ∈ datasets → C ∈ columns df → C ∉ exclude_cols →
     is_Some (build_measurement_map datasets !! C))
  ∧ (∀ C, C ∈ exclude_cols → build_measurement_map datasets !! C = None).
Proof.
  split.
  - intros name df C Hin HC Hres. unfold build_measurement_map.
    apply list_elem_of_split in Hin as (ds1 & ds2 & ->).
    rewrite index_datasets_app, index_datasets_cons.
    apply index_datasets_keeps_keys.
    rewrite index_columns_lookup, decide_True; done.
  - intros C Hres. unfold build_measurement_map.
    by rewrite index_datasets_reserved.
Qed.

Lemma index_complete_reserved_excluded_witness :
  is_Some (build_measurement_map three_datasets !! "OvenB")
  ∧ build_measurement_map three_datasets !! "DATE" = None.
Proof.
  destruct (index_complete_reserved_excluded three_datasets) as [Hkeys Hres].
  split.
  - apply (Hkeys "dataset2" (frame_of ["DATETIME"; "CW"; "DATE"; "OvenA"; "OvenB"]) "OvenB").
    + right. left.
    + compute_done.
    + compute_done.
  - apply Hres. compute_done.
Defined.

(** C10: every value of the index is the name of a loaded dataset, so the
    lookup of a resolved name in the dataset collection succeeds. *)
Theorem index_values_are_dataset_names (datasets : list (string * DataFrame))
    (key dataset_name : string) :
  map_get (build_measurement_map datasets) key = Ok dataset_name →
  ∃ df, dict_get datasets dataset_name = Ok df.
Proof.
  unfold map_get, build_measurement_map. intros Hget.
  destruct (index_datasets datasets ∅ !! key) as [v|] eqn:Hv; [|discriminate].
  injection Hget as ->.
  apply index_datasets_values in Hv as [Hv|(df & Hin & _)].
  - by rewrite lookup_empty in Hv.
  - by apply dict_get_elem_of in Hin.
Qed.

Lemma index_values_are_dataset_names_witness :
  ∃ df, dict_get three_datasets "dataset2" = Ok df.
Proof.
  apply (index_values_are_dataset_names three_datasets "OvenB" "dataset2").
  vm_compute. reflexivity.
Defined.

(** ** Results *)

Lemma bind_ok_inv {A B} (m : result A) (f : A → result B) (b : B) :
  m ≫= f = Ok b → ∃ a, m = Ok a ∧ f a = Ok b.
Proof. destruct m as [a|e]; [by exists a|discriminate]. Qed.

Lemma bind_raise {A B} (m : result A) (f : A → result B) (e : error) :
  m = Raise e → m ≫= f = Raise e.
Proof. by intros ->. Qed.

Lemma bind_ok {A B} (m : result A) (f : A → result B) (a : A) :
  m = Ok a → m ≫= f = f a.
Proof. by intros ->. Qed.

(** ** Columns *)

Lemma bounded_datetime_like (c c' : cell) (ns : Z) :
  bounded c ns = Ok c' → datetime_like c'.
Proof.
  unfold bounded. destruct (decide _) as [Hb|Hb]; [|discriminate].
  intros [= <-]. by apply bool_decide_pack.
Qed.

Lemma parsed_datetime_like (c c' : cell) (r : option (option Z)) :
  parsed c r = Ok c' → datetime_like c'.
Proof.
  destruct r as [[ns|]|]; simpl; [apply bounded_datetime_like|by intros [= <-]|discriminate].
Qed.

Lemma to_datetime_scalar_datetime_like `{Pandas} (c c' : cell) :
  to_datetime_scalar c = Ok c' → datetime_like c'.
Proof.
  destruct c; simpl; try apply parsed_datetime_like;
    [by intros [= <-]|apply bounded_datetime_like].
Qed.

Lemma to_datetime_cell_datetime_like `{Pandas} (column : list cell) (c c' : cell) :
  to_datetime_cell column c = Ok c' → datetime_like c'.
Proof.
  destruct c; cbn [to_datetime_cell];
    try (intros (? & _ & Hc)%bind_ok_inv; by apply parsed_datetime_like in Hc);
    [by intros [= <-]|apply bounded_datetime_like].
Qed.

(** A cell of a datetime column converts to itself. *)
Lemma to_datetime_cell_fixed `{Pandas} (column : list cell) (c : cell) :
  datetime_like c → to_datetime_cell column c = Ok c.
Proof.
  destruct c; try done. simpl. intros Hb%bool_decide_unpack.
  unfold bounded. by rewrite decide_True.
Qed.

Lemma to_datetime_cells_ok `{Pandas} (column s s' : list cell) :
  to_datetime_cells column s = Ok s' →
  length s' = length s ∧ Forall (λ c, datetime_like c) s'.
Proof.
  revert s'. induction s as [|c s IH]; intros s' Hs; simpl in Hs.
  - injection Hs as <-. by split.
  - apply bind_ok_inv in Hs as (t & Ht & Hs).
    apply bind_ok_inv in Hs as (ts & Hts & Hs). injection Hs as <-.
    destruct (IH ts Hts) as [Hlen Hall]. split; [simpl; lia|].
    constructor; [|done]. by eapply to_datetime_cell_datetime_like.
Qed.

Lemma to_datetime_ok `{Pandas} (s s' : list cell) :
  to_datetime s = Ok s' →
  length s' = length s ∧ Forall (λ c, datetime_like c) s'.
Proof. apply to_datetime_cells_ok. Qed.

Lemma to_datetime_cell_raises `{Pandas} (column : list cell) (c : cell) (e : error) :
  to_datetime_scalar c = Raise e → ∃ e', to_datetime_cell column c = Raise e'.
Proof.
  destruct c; cbn [to_datetime_cell]; try (intros ->; by eexists); [discriminate|].
  unfold to_datetime_scalar. intros ->. by eexists.
Qed.

Lemma to_datetime_cells_raises `{Pandas} (column s : list cell) (c : cell) (e : error) :
  c ∈ s → to_datetime_scalar c = Raise e → ∃ e', to_datetime_cells column s = Raise e'.
Proof.
  intros Hin Hc. induction s as [|c0 s IH]; [by apply elem_of_nil in Hin|].
  simpl. destruct (to_datetime_cell column c0) as [t|e0] eqn:Hc0; [|by eexists].
  apply elem_of_cons in Hin as [->|Hin].
  - destruct (to_datetime_cell_raises column c0 e Hc) as [e' He']. congruence.
  - destruct (IH Hin) as [e' ->]. by eexists.
Qed.

(** One element that does not convert makes the whole call raise. *)
Lemma to_datetime_raises `{Pandas} (s : list cell) (c : cell) (e : error) :
  c ∈ s → to_datetime_scalar c = Raise e → ∃ e', to_datetime s = Raise e'.
Proof. apply to_datetime_cells_raises. Qed.

Lemma dt_date_datetime_like (s : list cell) :
  Forall (λ c, datetime_like c) s → dt_date s = Ok (map cell_date s).
Proof.
  induction 1 as [|c s Hc _ IH]; [done|].
  destruct c; try done; simpl; by rewrite IH.
Qed.

(** The dates of a column are not all missing exactly when the column is
    empty or holds a timestamp. *)
Lemma all_nat_dates (s : list cell) :
  all_nat (map cell_date s) = false ↔ s = [] ∨ ∃ c, c ∈ s ∧ is_timestamp c.
Proof.
  destruct s as [|c0 s]; [by split; [left|]|].
  unfold all_nat. cbn [map]. rewrite <- (not_true_iff_false (forallb _ _)), forallb_forall.
  split.
  - intros Hex. right.
    destruct (decide (Exists (λ c, is_timestamp c) (c0 :: s))) as [Hd|Hd].
    + apply Exists_exists in Hd as (c & Hc & Ht). eauto.
    + destruct Hex. intros o Ho.
      apply (in_map_iff cell_date (c0 :: s) o) in Ho as (c & <- & Hc).
      destruct c; try done. destruct Hd. apply Exists_exists. exists (CTime ns).
      split; [by apply list_elem_of_In|done].
  - intros [?|(c & Hc & Ht)] Hall; [done|]. destruct c; try done.
    specialize (Hall (cell_date (CTime ns))). simpl in Hall.
    assert (In (Some (timestamp_date ns)) (map cell_date (c0 :: s))) as Hin.
    { apply (in_map cell_date (c0 :: s) (CTime ns)). by apply list_elem_of_In. }
    by specialize (Hall Hin).
Qed.

Lemma mask_and_dates (s : list cell) (a b : Z) (after_start before_end : list bool) :
  ge_date (map cell_date s) a = Ok after_start →
  le_date (map cell_date s) b = Ok before_end →
  mask_and after_start before_end = map (date_in_range a b) s.
Proof.
  unfold mask_and, ge_date, le_date. destruct (all_nat _); [discriminate|].
  intros [= <-] [= <-].
  induction s as [|c s IH]; [done|]. simpl. rewrite IH. f_equal.
  destruct c; simpl; try done. by rewrite bool_decide_and.
Qed.

Lemma date_comparisons (s : list cell) (a b : Z) :
  (s = [] ∨ ∃ c, c ∈ s ∧ is_timestamp c) →
  ∃ after_start before_end,
    ge_date (map cell_date s) a = Ok after_start ∧
    le_date (map cell_date s) b = Ok before_end.
Proof.
  intros Hs%all_nat_dates. unfold ge_date, le_date. rewrite Hs. eauto.
Qed.

Lemma date_comparisons_inv (s : list cell) (a : Z) (after_start : list bool) :
  ge_date (map cell_date s) a = Ok after_start →
  s = [] ∨ ∃ c, c ∈ s ∧ is_timestamp c.
Proof.
  unfold ge_date. destruct (all_nat _) eqn:Hs; [discriminate|].
  intros _. by apply all_nat_dates.
Qed.

Lemma date_comparisons_undated (s : list cell) (a : Z) :
  s ≠ [] → (∀ c, c ∈ s → ¬ is_timestamp c) →
  ge_date (map cell_date s) a = Raise TypeError.
Proof.
  intros Hne Hno. unfold ge_date. destruct (all_nat _) eqn:Hs; [done|].
  apply all_nat_dates in Hs as [?|(c & Hc & Ht)]; [done|]. by destruct (Hno c Hc).
Qed.

Lemma select_map {A B} (f : B → bool) (g : A → B) (xs : list A) :
  select (map f (map g xs)) xs = filter (λ x, f (g x)) xs.
Proof.
  induction xs as [|x xs IH]; [done|]. cbn [select map]. rewrite IH.
  destruct (f (g x)) eqn:Hx.
  - rewrite filter_cons_True by (by apply Is_true_true_2). done.
  - rewrite filter_cons_False by (by apply Is_true_false_2). done.
Qed.

(** ** Frames *)

Lemma column_position_ok (df : DataFrame) (col : string) (p : nat) :
  column_position df col = Ok p ↔ list_find (λ c, c = col) (columns df) = Some (p, col).
Proof.
  unfold column_position.
  destruct (list_find _ _) as [[q c]|] eqn:Hfind.
  - apply list_find_Some in Hfind as Hq. destruct Hq as (_ & -> & _).
    split; [by intros [= ->]|by intros [= ->]].
  - split; discriminate.
Qed.

Lemma getitem_ok (df : DataFrame) (col : string) (s : list cell) :
  getitem df col = Ok s ↔
  ∃ p, column_position df col = Ok p ∧ s = map (cell_at p) (rows df).
Proof.
  unfold getitem. split.
  - intros Hs. apply bind_ok_inv in Hs as (p & Hp & Hs). injection Hs as <-. eauto.
  - intros (p & Hp & ->). by rewrite Hp.
Qed.

Lemma getitem_length (df : DataFrame) (col : string) (s : list cell) :
  getitem df col = Ok s → length s = length (rows df).
Proof. intros (p & _ & ->)%getitem_ok. by rewrite length_map. Qed.

(** Assigning an existing column keeps the schema and rewrites one position
    of every row. *)
Lemma setitem_existing (df : DataFrame) (col : string) (s : list cell) (p : nat) :
  column_position df col = Ok p → length s = length (rows df) →
  setitem df col s =
    Ok (mkDataFrame (columns df)
          (zip_with (λ (r : nat * list cell) v, (r.1, <[p:=v]> r.2)) (rows df) s)).
Proof.
  intros Hp%column_position_ok Hlen. unfold setitem.
  rewrite decide_True by done. by rewrite Hp.
Qed.

Lemma assigned_labels (p : nat) (rs : list (nat * list cell)) (s : list cell) :
  length s = length rs →
  map fst (zip_with (λ (r : nat * list cell) v, (r.1, <[p:=v]> r.2)) rs s) = map fst rs.
Proof.
  revert s. induction rs as [|r rs IH]; intros [|v s] Hlen; try done.
  simpl in *. f_equal. apply IH. lia.
Qed.

Lemma assigned_column (p : nat) (rs : list (nat * list cell)) (s : list cell) :
  Forall (λ c, datetime_like c) s →
  Forall (λ c, datetime_like c)
    (map (cell_at p) (zip_with (λ (r : nat * list cell) v, (r.1, <[p:=v]> r.2)) rs s)).
Proof.
  intros Hs. revert rs. induction Hs as [|v s Hv _ IH]; intros [|r rs]; try done.
  simpl. constructor; [|apply IH].
  unfold cell_at. simpl. destruct (decide (p < length r.2)%nat).
  - by rewrite list_lookup_insert_eq.
  - rewrite list_insert_ge by lia. by rewrite lookup_ge_None_2 by lia.
Qed.

Lemma other_column (p q : nat) (rs : list (nat * list cell)) (s : list cell) :
  p ≠ q → length s = length rs →
  map (cell_at q) (zip_with (λ (r : nat * list cell) v, (r.1, <[p:=v]> r.2)) rs s)
  = map (cell_at q) rs.
Proof.
  intros Hpq. revert s. induction rs as [|r rs IH]; intros [|v s] Hlen; try done.
  simpl in *. f_equal; [|apply IH; lia].
  unfold cell_at. simpl. by rewrite list_lookup_insert_ne.
Qed.

Lemma column_positions_differ (df : DataFrame) (c1 c2 : string) (p1 p2 : nat) :
  c1 ≠ c2 → column_position df c1 = Ok p1 → column_position df c2 = Ok p2 → p1 ≠ p2.
Proof.
  intros Hne H1%column_position_ok H2%column_position_ok ->.
  apply list_find_Some in H1 as (H1 & _). apply list_find_Some in H2 as (H2 & _).
  congruence.
Qed.

Lemma column_position_columns (df df' : DataFrame) (col : string) :
  columns df' = columns df → column_position df' col = column_position df col.
Proof. unfold column_position. by intros ->. Qed.

(** What the coercion of lines 177-178 leaves behind: the schema and the
    labels of the source, and a [DATE] column of datetime cells. *)
Lemma coerce_timestamps_ok `{Pandas} (df df' : DataFrame) :
  coerce_timestamps df = Ok df' →
  columns df' = columns df ∧
  map fst (rows df') = map fst (rows df) ∧
  ∃ p, column_position df' "DATE" = Ok p ∧
       Forall (λ c, datetime_like c) (map (cell_at p) (rows df')).
Proof.
  unfold coerce_timestamps. intros Hc.
  apply bind_ok_inv in Hc as (s & Hs & Hc).
  apply bind_ok_inv in Hc as (s' & Hs' & Hc).
  apply bind_ok_inv in Hc as (df1 & Hdf1 & Hc).
  apply bind_ok_inv in Hc as (d & Hd & Hc).
  apply bind_ok_inv in Hc as (d' & Hd' & Hc).
  pose proof (getitem_length _ _ _ Hs) as Hlen.
  apply getitem_ok in Hs as (p1 & Hp1 & _).
  apply to_datetime_ok in Hs' as [Hlen' _].
  rewrite (setitem_existing df "DATETIME" s' p1) in Hdf1 by (done || lia).
  injection Hdf1 as <-.
  pose proof (getitem_length _ _ _ Hd) as Hlend.
  apply getitem_ok in Hd as (p2 & Hp2 & _).
  apply to_datetime_ok in Hd' as [Hlend' Hlike].
  rewrite (setitem_existing _ "DATE" d' p2) in Hc by (done || lia).
  injection Hc as <-. cbn [columns rows] in *.
  split; [done|]. split.
  - rewrite assigned_labels by lia. apply assigned_labels. lia.
  - exists p2. split; [done|]. by apply assigned_column.
Qed.

Lemma row_in_range_at (df : DataFrame) (p : nat) (a b : Z) (r : nat * list cell) :
  column_position df "DATE" = Ok p →
  row_in_range df a b r = date_in_range a b (cell_at p r).
Proof. unfold row_in_range. by intros ->. Qed.

Lemma has_dates_at (df : DataFrame) (p : nat) :
  column_position df "DATE" = Ok p →
  has_dates df ↔
  map (cell_at p) (rows df) = [] ∨ ∃ c, c ∈ map (cell_at p) (rows df) ∧ is_timestamp c.
Proof.
  intros Hp. unfold has_dates. split.
  - intros [->|(q & r & Hq & Hr & Ht)]; [by left|right].
    assert (q = p) as -> by congruence.
    exists (cell_at p r). split; [|done]. apply list_elem_of_fmap. eauto.
  - intros [Hnil|(c & Hc & Ht)]; [left; by apply fmap_nil_inv in Hnil|right].
    apply list_elem_of_fmap in Hc as (r & -> & Hr). eauto.
Qed.

(** Line 199 on a frame whose [DATE] column holds datetime cells, not all of
    them missing: it does not raise, and the mask selection is the filter
    by the date predicate. *)
Lemma filter_range_ok (df : DataFrame) (p : nat) (a b : Z) :
  column_position df "DATE" = Ok p →
  Forall (λ c, datetime_like c) (map (cell_at p) (rows df)) →
  has_dates df →
  filter_range df a b =
    Ok (mkDataFrame (columns df) (filter (λ r, row_in_range df a b r) (rows df))).
Proof.
  intros Hp Hlike Hdates%(has_dates_at df p Hp). unfold filter_range, date_mask, getitem.
  rewrite Hp. cbn [mbind result_bind mret result_ret].
  rewrite (dt_date_datetime_like _ Hlike). cbn [mbind result_bind mret result_ret].
  destruct (date_comparisons _ a b Hdates) as (after_start & before_end & Hge & Hle).
  rewrite Hge. cbn [mbind result_bind mret result_ret].
  rewrite Hle. cbn [mbind result_bind mret result_ret].
  rewrite (mask_and_dates _ a b _ _ Hge Hle). unfold select_rows.
  rewrite decide_True by (by rewrite !length_map).
  rewrite select_map. do 2 f_equal.
  apply list_filter_iff. intros r. by rewrite (row_in_range_at df p).
Qed.

(** With rows and no date in any of them, line 199 raises TypeError: the
    column of dates is a datetime column again, which does not compare
    with a date. *)
Lemma filter_range_undated (df : DataFrame) (p : nat) (a b : Z) :
  column_position df "DATE" = Ok p →
  Forall (λ c, datetime_like c) (map (cell_at p) (rows df)) →
  ¬ has_dates df →
  filter_range df a b = Raise TypeError.
Proof.
  intros Hp Hlike Hno. unfold filter_range, date_mask, getitem.
  rewrite Hp. cbn [mbind result_bind mret result_ret].
  rewrite (dt_date_datetime_like _ Hlike). cbn [mbind result_bind mret result_ret].
  rewrite date_comparisons_undated; [done| |].
  - intros Hnil. apply Hno, (has_dates_at df p Hp). by left.
  - intros c Hc Ht. apply Hno, (has_dates_at df p Hp). right. eauto.
Qed.

(** A frame line 199 returns a view of has a date or no rows. *)
Lemma filter_range_dated (df view : DataFrame) (p : nat) (a b : Z) :
  column_position df "DATE" = Ok p →
  Forall (λ c, datetime_like c) (map (cell_at p) (rows df)) →
  filter_range df a b = Ok view → has_dates df.
Proof.
  intros Hp Hlike. unfold filter_range, date_mask, getitem.
  rewrite Hp. cbn [mbind result_bind mret result_ret].
  rewrite (dt_date_datetime_like _ Hlike). cbn [mbind result_bind mret result_ret].
  intros (mask & Hmask & _)%bind_ok_inv.
  apply bind_ok_inv in Hmask as (after_start & Hge & _).
  apply (has_dates_at df p Hp). by eapply date_comparisons_inv.
Qed.

(** The query on a frame that coerces and has a date or no rows: the view
    exists and is the filter of the coerced rows. *)
Lemma range_query_ok `{Pandas} (df df' : DataFrame) (start_date end_date : pydate) :
  coerce_timestamps df = Ok df' → has_dates df' →
  range_query df start_date end_date =
    Ok (mkDataFrame (columns df')
          (filter (λ r, row_in_range df' (as_date start_date) (as_date end_date) r)
                  (rows df'))).
Proof.
  intros Hc Hdates. unfold range_query. rewrite Hc. cbn [mbind result_bind].
  destruct (coerce_timestamps_ok df df' Hc) as (_ & _ & p & Hp & Hlike).
  by apply (filter_range_ok df' p).
Qed.

(** The query on a frame that coerces and has rows but no date. *)
Lemma range_query_raises `{Pandas} (df df' : DataFrame) (start_date end_date : pydate) :
  coerce_timestamps df = Ok df' → ¬ has_dates df' →
  range_query df start_date end_date = Raise TypeError.
Proof.
  intros Hc Hno. unfold range_query. rewrite Hc. cbn [mbind result_bind].
  destruct (coerce_timestamps_ok df df' Hc) as (_ & _ & p & Hp & Hlike).
  by apply (filter_range_undated df' p).
Qed.






(** *** The coerced rows, row by row *)

Lemma to_datetime_each `{Pandas} (column s s' : list cell) :
  to_datetime_cells column s = Ok s' →
  Forall2 (λ c c', to_datetime_cell column c = Ok c') s s'.
Proof.
  revert s'. induction s as [|c s IH]; intros s' Hs; simpl in Hs.
  - injection Hs as <-. constructor.
  - apply bind_ok_inv in Hs as (t & Ht & Hs).
    apply bind_ok_inv in Hs as (ts & Hts & Hs). injection Hs as <-.
    constructor; [done|by apply IH].
Qed.

(** The cell read back at an assigned position is the converted cell, also
    in a row too short to have that position. *)
Lemma cell_at_assigned `{Pandas} (column : list cell) (p : nat) (l l' : nat)
    (cs : list cell) (v : cell) :
  to_datetime_cell column (cell_at p (l, cs)) = Ok v → cell_at p (l', <[p:=v]> cs) = v.
Proof.
  unfold cell_at. cbn [snd]. intros Hv. destruct (decide (p < length cs)%nat).
  - by rewrite list_lookup_insert_eq.
  - rewrite list_insert_ge by lia. rewrite lookup_ge_None_2 in Hv |- * by lia.
    simpl in Hv. by injection Hv.
Qed.

Lemma coerced_rows `{Pandas} (col1 col2 : list cell) (p1 p2 : nat)
    (rs : list (nat * list cell)) (s d : list cell) :
  p1 ≠ p2 →
  Forall2 (λ c c', to_datetime_cell col1 c = Ok c') (map (cell_at p1) rs) s →
  Forall2 (λ c c', to_datetime_cell col2 c = Ok c') (map (cell_at p2) rs) d →
  Forall2 (λ r r' : nat * list cell,
             r'.1 = r.1 ∧ length r'.2 = length r.2 ∧
             to_datetime_cell col1 (cell_at p1 r) = Ok (cell_at p1 r') ∧
             to_datetime_cell col2 (cell_at p2 r) = Ok (cell_at p2 r') ∧
             ∀ q, q ≠ p1 → q ≠ p2 → r'.2 !! q = r.2 !! q)
    rs
    (zip_with (λ (r : nat * list cell) v, (r.1, <[p2:=v]> r.2))
       (zip_with (λ (r : nat * list cell) v, (r.1, <[p1:=v]> r.2)) rs s) d).
Proof.
  intros Hne. revert s d. induction rs as [|[l cs] rs IH]; intros s d Hs Hd.
  - constructor.
  - cbn [map] in Hs, Hd.
    apply Forall2_cons_inv_l in Hs as (v1 & s1 & Hv1 & Hs & ->).
    apply Forall2_cons_inv_l in Hd as (v2 & d1 & Hv2 & Hd & ->).
    cbn [zip_with fst snd]. constructor; [|by apply IH].
    cbn [fst snd]. split; [done|]. split; [by rewrite !length_insert|].
    split; [|split].
    + rewrite Hv1. f_equal. symmetry.
      unfold cell_at at 1. cbn [snd]. rewrite list_lookup_insert_ne by done.
      by apply (cell_at_assigned col1 p1 l l).
    + rewrite Hv2. f_equal. symmetry. apply (cell_at_assigned col2 p2 l l).
      unfold cell_at in Hv2 |- *. cbn [snd] in Hv2 |- *.
      by rewrite list_lookup_insert_ne.
    + intros q Hq1 Hq2. by rewrite !list_lookup_insert_ne.
Qed.

(** A coerced row is its source row with the same label and the same
    length, its [DATETIME] and [DATE] cells converted in their columns and
    every other cell as it was. *)
Lemma coerce_timestamps_rows `{Pandas} (df df' : DataFrame) :
  coerce_timestamps df = Ok df' →
  ∃ p1 p2,
    column_position df "DATETIME" = Ok p1 ∧ column_position df "DATE" = Ok p2 ∧
    Forall2 (λ r r' : nat * list cell,
               r'.1 = r.1 ∧ length r'.2 = length r.2 ∧
               to_datetime_cell (map (cell_at p1) (rows df)) (cell_at p1 r)
                 = Ok (cell_at p1 r') ∧
               to_datetime_cell (map (cell_at p2) (rows df)) (cell_at p2 r)
                 = Ok (cell_at p2 r') ∧
               ∀ q, q ≠ p1 → q ≠ p2 → r'.2 !! q = r.2 !! q)
      (rows df) (rows df').
Proof.
  unfold coerce_timestamps. intros Hc.
  apply bind_ok_inv in Hc as (s & Hs & Hc).
  apply bind_ok_inv in Hc as (s' & Hs' & Hc).
  apply bind_ok_inv in Hc as (df1 & Hdf1 & Hc).
  apply bind_ok_inv in Hc as (d & Hd & Hc).
  apply bind_ok_inv in Hc as (d' & Hd' & Hc).
  pose proof (getitem_length _ _ _ Hs) as Hlen.
  apply getitem_ok in Hs as (p1 & Hp1 & ->).
  pose proof (to_datetime_ok _ _ Hs') as [Hlen' _].
  rewrite (setitem_existing df "DATETIME" s' p1) in Hdf1 by (done || lia).
  injection Hdf1 as <-.
  pose proof (getitem_length _ _ _ Hd) as Hlend.
  apply getitem_ok in Hd as (p2 & Hp2 & ->).
  pose proof (to_datetime_ok _ _ Hd') as [Hlend' _].
  rewrite (setitem_existing _ "DATE" d' p2) in Hc by (done || lia).
  injection Hc as <-. cbn [columns rows] in *.
  rewrite (column_position_columns df) in Hp2 by done.
  assert (p1 ≠ p2) as Hne by (by apply (column_positions_differ df "DATETIME" "DATE")).
  exists p1, p2. split; [done|]. split; [done|].
  rewrite other_column in Hd' by (done || lia).
  apply coerced_rows; [done|by apply to_datetime_each|by apply to_datetime_each].
Qed.

(** X23: the view of a well-formed frame is well formed: every row of the
    view has one cell per column. *)
Lemma range_query_well_formed `{Pandas} (df view : DataFrame) (start_date end_date : pydate) :
  well_formed df → range_query df start_date end_date = Ok view → well_formed view.
Proof.
  intros Hwf Hq. unfold range_query in Hq.
  apply bind_ok_inv in Hq as (df' & Hc & Hq).
  destruct (coerce_timestamps_ok df df' Hc) as (Hcols & _ & p & Hp & Hlike).
  pose proof (filter_range_dated df' view p _ _ Hp Hlike Hq) as Hdates.
  rewrite (filter_range_ok df' p) in Hq by done. injection Hq as <-.
  destruct (coerce_timestamps_rows df df' Hc) as (p1 & p2 & _ & _ & Hrows).
  unfold well_formed in *. cbn [rows columns]. rewrite Hcols.
  apply Forall_forall. intros r' [_ Hr']%list_elem_of_filter.
  apply list_elem_of_lookup in Hr' as [i Hi].
  destruct (Forall2_lookup_r _ _ _ _ _ Hrows Hi) as (r & Hr & _ & Hlen & _).
  rewrite Hlen. by apply (Forall_lookup_1 _ _ _ _ Hwf Hr).
Qed.



(** C8: when a [DATETIME] or [DATE] value of the dataset does not convert,
    the coercion raises, so the query raises and returns no view. *)
Theorem coercion_fails_loudly `{Pandas} (df : DataFrame) (col : string) (s : list cell)
    (c : cell) (e0 : error) (start_date end_date : pydate) :
  col = "DATETIME" ∨ col = "DATE" →
  getitem df col = Ok s → c ∈ s → to_datetime_scalar c = Raise e0 →
  ∃ e, coerce_timestamps df = Raise e ∧ range_query df start_date end_date = Raise e.
Proof.
  intros Hcol Hs Hin Hbad.
  destruct (to_datetime_raises s c e0 Hin Hbad) as [e' He'].
  assert (∃ e, coerce_timestamps df = Raise e) as [e He].
  { unfold coerce_timestamps. destruct Hcol as [-> | ->].
    - rewrite Hs. cbn [mbind result_bind]. rewrite He'. by eexists.
    - destruct (getitem df "DATETIME") as [s1|e1] eqn:Hs1; [|by eexists].
      cbn [mbind result_bind].
      destruct (to_datetime s1) as [s1'|e1] eqn:Hs1'; [|by eexists].
      cbn [mbind result_bind].
      pose proof (getitem_length _ _ _ Hs1) as Hlen.
      apply getitem_ok in Hs1 as (p1 & Hp1 & _).
      apply to_datetime_ok in Hs1' as [Hlen' _].
      rewrite (setitem_existing df "DATETIME" s1' p1) by (done || lia).
      cbn [mbind result_bind].
      apply getitem_ok in Hs as (p2 & Hp2 & ->).
      assert (p1 ≠ p2) as Hne.
      { by apply (column_positions_differ df "DATETIME" "DATE"). }
      unfold getitem at 1.
      rewrite (column_position_columns df) by done. rewrite Hp2.
      cbn [mbind result_bind mret result_ret rows].
      rewrite other_column by (done || lia). rewrite He'. by eexists. }
  exists e. split; [done|]. unfold range_query. by rewrite He.
Qed.

Lemma coercion_fails_loudly_witness :
  ∃ e, @coerce_timestamps sample_pandas dataset_bad = Raise e ∧
       @range_query sample_pandas dataset_bad
         (PyDate (january_2025 1)) (PyDate (january_2025 3)) = Raise e.
Proof.
  apply (@coercion_fails_loudly sample_pandas dataset_bad "DATE"
           [CTime (january_2025 1 * ns_per_day); CTime (january_2025 2 * ns_per_day);
            CStr "oven offline"]
           (CStr "oven offline") (ParserError (CStr "oven offline"))).
  - right. reflexivity.
  - vm_compute. reflexivity.
  - right. right. left.
  - reflexivity.
Defined.

Lemma dataset1_has_dates : has_dates dataset1.
Proof.
  right. exists 1%nat, (reading 0 1 175 176).
  split; [reflexivity|]. split; [left|done].
Qed.



(** ** The csv text and its reader *)

(** A character that does not make its field quoted is none of the
    characters the reader acts on, a carriage return apart where the line
    terminator is LF alone. *)
Lemma not_special `{Pandas} (c : ascii) :
  special c = false → (windows = false → c ≠ CR) →
  c ≠ delimiter ∧ c ≠ quotechar ∧ c ≠ LF ∧ c ≠ CR.
Proof.
  unfold special, lineterminator. intros Hc%bool_decide_eq_false Hcr.
  destruct windows.
  - repeat split; intros ->; apply Hc; repeat first [by left | right].
  - repeat split; [intros ->; apply Hc; repeat first [by left | right]..|by apply Hcr].
Qed.

Lemma step_plain_start `{Pandas} (c : ascii) (fld : list ascii) (rec : list string)
    (out : list (list string)) :
  special c = false → (windows = false → c ≠ CR) →
  step (mkReader Start fld rec out) c = mkReader Unquoted (c :: fld) rec out.
Proof.
  intros Hc Hcr. destruct (not_special c Hc Hcr) as (Hd & Hq & Hlf & Hcr').
  unfold step, step_start. cbn [rmode].
  rewrite !decide_False by tauto. done.
Qed.

Lemma step_plain_unquoted `{Pandas} (c : ascii) (fld : list ascii) (rec : list string)
    (out : list (list string)) :
  special c = false → (windows = false → c ≠ CR) →
  step (mkReader Unquoted fld rec out) c = mkReader Unquoted (c :: fld) rec out.
Proof.
  intros Hc Hcr. destruct (not_special c Hc Hcr) as (Hd & Hq & Hlf & Hcr').
  unfold step. cbn [rmode].
  rewrite !decide_False by tauto. done.
Qed.

(** A run of ordinary characters is read as it stands. *)
Lemma run_plain `{Pandas} (s fld : list ascii) (rec : list string)
    (out : list (list string)) :
  existsb special s = false → (windows = false → CR ∉ s) →
  foldl step (mkReader Unquoted fld rec out) s = mkReader Unquoted (rev s ++ fld) rec out.
Proof.
  revert fld. induction s as [|c s IH]; intros fld Hs Hcr; [done|].
  cbn [existsb] in Hs. apply orb_false_iff in Hs as [Hc Hs].
  cbn [foldl]. rewrite step_plain_unquoted; [|done|].
  - rewrite IH; [|done|].
    + cbn [rev]. by rewrite <- app_assoc.
    + intros Hw Hin. apply (Hcr Hw). by right.
  - intros Hw ->. apply (Hcr Hw). by left.
Qed.

Lemma step_start_quote (fld : list ascii) (rec : list string) (out : list (list string)) :
  step (mkReader Start fld rec out) quotechar = mkReader Quoted fld rec out.
Proof. done. Qed.

Lemma step_quoted_quote (fld : list ascii) (rec : list string) (out : list (list string)) :
  step (mkReader Quoted fld rec out) quotechar = mkReader QuoteSeen fld rec out.
Proof. done. Qed.

Lemma step_quote_seen_quote (fld : list ascii) (rec : list string)
    (out : list (list string)) :
  step (mkReader QuoteSeen fld rec out) quotechar
  = mkReader Quoted (quotechar :: fld) rec out.
Proof. done. Qed.

Lemma step_quoted_other (c : ascii) (fld : list ascii) (rec : list string)
    (out : list (list string)) :
  c ≠ quotechar →
  step (mkReader Quoted fld rec out) c = mkReader Quoted (c :: fld) rec out.
Proof. intros Hc. unfold step. cbn [rmode]. by rewrite decide_False. Qed.

(** Inside quotes every character is data, and a doubled quote is one quote. *)
Lemma run_escaped (s fld : list ascii) (rec : list string) (out : list (list string)) :
  foldl step (mkReader Quoted fld rec out) (escape s)
  = mkReader Quoted (rev s ++ fld) rec out.
Proof.
  revert fld. induction s as [|c s IH]; intros fld; [done|].
  cbn [escape rev]. rewrite <- app_assoc.
  destruct (decide (c = quotechar)) as [->|Hc]; cbn [foldl].
  - by rewrite step_quoted_quote, step_quote_seen_quote, IH.
  - by rewrite step_quoted_other, IH.
Qed.

Lemma run_field `{Pandas} (f : string) (rec : list string) (out : list (list string)) :
  reads_back f →
  foldl step (mkReader Start [] rec out) (write_field f) = after_field f rec out.
Proof.
  unfold reads_back, write_field, after_field. cbn zeta. intros Hcr.
  destruct (existsb special (list_ascii_of_string f)) eqn:Hsp.
  - cbn [foldl]. rewrite step_start_quote, foldl_app, run_escaped. cbn [foldl].
    by rewrite step_quoted_quote, app_nil_r.
  - destruct (list_ascii_of_string f) as [|c s]; [done|].
    cbn [existsb] in Hsp. apply orb_false_iff in Hsp as [Hc Hs].
    cbn [foldl]. rewrite step_plain_start; [|done|].
    + rewrite run_plain; [done|done|]. intros Hw Hin. apply (Hcr Hw). by right.
    + intros Hw ->. apply (Hcr Hw). by left.
Qed.

Lemma field_text_rev (f : string) : field_text (rev (list_ascii_of_string f)) = f.
Proof. unfold field_text. by rewrite rev_involutive, string_of_list_ascii_of_string. Qed.

Lemma after_field_delimiter `{Pandas} (f : string) (rec : list string) (out : list (list string)) :
  step (after_field f rec out) delimiter = mkReader Start [] (f :: rec) out.
Proof.
  unfold after_field. cbn zeta.
  destruct (existsb special (list_ascii_of_string f)) eqn:Hsp.
  - unfold step. cbn [rmode]. rewrite decide_False by done.
    rewrite decide_True by done. unfold end_field. cbn [rfield rrecord rdone].
    by rewrite field_text_rev.
  - destruct (list_ascii_of_string f) as [|c s] eqn:Hf.
    + unfold step, step_start. cbn [rmode]. rewrite decide_False by done.
      rewrite decide_True by done. unfold end_field. cbn [rfield rrecord rdone].
      rewrite <- (string_of_list_ascii_of_string f), Hf. done.
    + unfold step. cbn [rmode]. rewrite decide_True by done.
      unfold end_field. cbn [rfield rrecord rdone].
      by rewrite <- Hf, field_text_rev.
Qed.

Lemma line_end_from (rd : reader) `{Pandas} :
  rmode rd ≠ Quoted → rmode rd ≠ EatLF →
  foldl step rd lineterminator = mkReader Start [] [] ((end_record rd LF).(rdone)).
Proof.
  intros Hq He. unfold lineterminator. destruct windows; cbn [foldl].
  - assert (step rd CR = end_record rd CR) as ->.
    { unfold step, step_start. destruct (rmode rd); try done;
        rewrite ?decide_False by done; rewrite decide_True by tauto; done. }
    unfold step, end_record. cbn [rmode]. rewrite decide_True by done.
    rewrite decide_True by done. done.
  - assert (step rd LF = end_record rd LF) as ->.
    { unfold step, step_start. destruct (rmode rd); try done;
        rewrite ?decide_False by done; rewrite decide_True by tauto; done. }
    unfold end_record. rewrite decide_False by done. done.
Qed.

Lemma after_field_line_end `{Pandas} (f : string) (rec : list string)
    (out : list (list string)) :
  ¬ (f = EmptyString ∧ rec = []) →
  foldl step (after_field f rec out) lineterminator
  = mkReader Start [] [] (rev (f :: rec) :: out).
Proof.
  intros Hne. unfold after_field. cbn zeta.
  destruct (existsb special (list_ascii_of_string f)) eqn:Hsp.
  - rewrite line_end_from by done. unfold end_record. cbn [rmode rfield rrecord rdone].
    by rewrite field_text_rev.
  - destruct (list_ascii_of_string f) as [|c s] eqn:Hf.
    + assert (f = EmptyString) as -> by (by rewrite <- (string_of_list_ascii_of_string f), Hf).
      rewrite line_end_from by done. unfold end_record. cbn [rmode rfield rrecord rdone].
      destruct rec; [tauto|done].
    + rewrite line_end_from by done. unfold end_record. cbn [rmode rfield rrecord rdone].
      by rewrite <- Hf, field_text_rev.
Qed.

Lemma join_fields_cons (x y : list ascii) (l : list (list ascii)) :
  join_fields (x :: y :: l) = x ++ delimiter :: join_fields (y :: l).
Proof. done. Qed.

Lemma run_fields `{Pandas} (f : string) (fs rec : list string) (out : list (list string)) :
  Forall reads_back (f :: fs) →
  ¬ (f = EmptyString ∧ fs = [] ∧ rec = []) →
  foldl step (mkReader Start [] rec out)
    (join_fields (map write_field (f :: fs)) ++ lineterminator)
  = mkReader Start [] [] ((rev rec ++ f :: fs) :: out).
Proof.
  revert f rec. induction fs as [|f' fs IH]; intros f rec [Hf Hfs]%Forall_cons Hne.
  - cbn [map join_fields]. rewrite foldl_app, run_field by done.
    rewrite after_field_line_end by tauto. done.
  - cbn [map]. rewrite join_fields_cons, <- app_assoc, foldl_app, run_field by done.
    cbn [app foldl]. rewrite after_field_delimiter.
    change (join_fields (write_field f' :: map write_field fs))
      with (join_fields (map write_field (f' :: fs))).
    rewrite IH; [|done|intros (_ & _ & [=])]. cbn [rev]. by rewrite <- app_assoc.
Qed.

(** One written record is read back as one record. *)
Lemma run_row `{Pandas} (fs : list string) (out : list (list string)) :
  Forall reads_back fs →
  foldl step (mkReader Start [] [] out) (write_row fs) = mkReader Start [] [] (fs :: out).
Proof.
  intros Hfs. unfold write_row. destruct fs as [|f fs].
  - cbn [map join_fields app]. by rewrite line_end_from.
  - destruct (decide (f = EmptyString ∧ fs = [])) as [[-> ->]|Hne].
    + cbn [app foldl]. rewrite step_start_quote, step_quoted_quote.
      by rewrite line_end_from.
    + assert (match f :: fs with
              | [EmptyString] => [quotechar; quotechar]
              | _ => join_fields (map write_field (f :: fs))
              end = join_fields (map write_field (f :: fs))) as ->.
      { destruct f; [|done]. destruct fs; [tauto|done]. }
      rewrite run_fields; [done|done|tauto].
Qed.

Lemma run_rows `{Pandas} (rs out : list (list string)) :
  Forall (Forall reads_back) rs →
  foldl step (mkReader Start [] [] out) (concat (map write_row rs))
  = mkReader Start [] [] (rev rs ++ out).
Proof.
  intros Hrs. revert out. induction Hrs as [|fs rs Hfs _ IH]; intros out; [done|].
  cbn [map concat]. rewrite foldl_app, run_row, IH by done. cbn [rev].
  by rewrite <- app_assoc.
Qed.

(** Reading back what the writer wrote gives the records that were written. *)
Lemma read_csv_write_rows `{Pandas} (rs : list (list string)) :
  Forall (Forall reads_back) rs →
  read_csv (concat (map write_row rs)) = rs.
Proof.
  intros Hrs. unfold read_csv. rewrite run_rows, app_nil_r by done.
  unfold finish. cbn [rmode rrecord rdone]. apply rev_involutive.
Qed.

Lemma decode_encode (text : list ascii) :
  decode_csv (encode_utf8 (string_of_list_ascii text)) = read_csv text.
Proof.
  unfold decode_csv, encode_utf8.
  by rewrite string_of_list_byte_of_string, list_ascii_of_string_of_list_ascii.
Qed.

Lemma csv_round_trip_rows `{Pandas} (df : DataFrame) :
  Forall (Forall reads_back) (text_rows df) →
  decode_csv (encode_utf8 (to_csv df)) = text_rows df.
Proof. intros Hrs. unfold to_csv. rewrite decode_encode. by apply read_csv_write_rows. Qed.

(** C7 as stated fails: where lines end in LF, a remark that holds a
    carriage return is written unquoted, and the text reads back as two
    records where the view has one row. *)
Lemma csv_round_trip_carriage_return_counterexample :
  ¬ (∀ (pandas : Pandas) (df : DataFrame),
       decode_csv (encode_utf8 (to_csv df))
       = columns df
         :: map (λ r : nat * list cell,
                   imap (λ p c, match c with
                                | CNull => EmptyString
                                | CInt n => pretty n
                                | CNum x => float_text x
                                | CStr s => s
                                | CTime ns => timestamp_text (dates_only df p) ns
                                end) r.2)
              (rows df)).
Proof.
  intros Hclaim. specialize (Hclaim sample_pandas dataset_remark).
  assert (decode_csv (encode_utf8 (@to_csv sample_pandas dataset_remark))
          = [["OvenA"; "Remark"]; ["174"; "a"]; ["b"]]) as Hread by (vm_compute; reflexivity).
  rewrite Hread in Hclaim. vm_compute in Hclaim. discriminate.
Qed.

(** C7, amended: when no column name and no text of a cell holds a carriage
    return, or the line terminator is CR LF, decoding the exported text
    gives back the column names in schema order and then, row by row in row
    order, the text of every cell: nothing for an empty cell, the decimal
    digits of a whole number, the text of a text cell as it is, and what
    pandas writes for a floating-point number and for a timestamp. *)
Theorem csv_round_trip `{Pandas} (df : DataFrame) (texts : list (list string)) :
  texts = map (λ r : nat * list cell,
                 imap (λ p c, match c with
                              | CNull => EmptyString
                              | CInt n => pretty n
                              | CNum x => float_text x
                              | CStr s => s
                              | CTime ns => timestamp_text (dates_only df p) ns
                              end) r.2)
            (rows df) →
  (windows = false →
   ∀ fs f, fs ∈ columns df :: texts → f ∈ fs → CR ∉ list_ascii_of_string f) →
  decode_csv (encode_utf8 (to_csv df)) = columns df :: texts.
Proof.
  intros -> Hcr. apply csv_round_trip_rows.
  apply Forall_forall. intros fs Hfs. apply Forall_forall. intros f Hf Hw.
  by apply (Hcr Hw fs).
Qed.

Lemma csv_round_trip_witness :
  decode_csv (encode_utf8 (@to_csv sample_pandas dataset1))
  = columns dataset1
    :: [["2025-01-01 08:00:00"; "2025-01-01"; "175.0"; "176.0"; "170.0"; "180.0"];
        ["2025-01-02 08:00:00"; "2025-01-02"; "174.0"; "177.0"; "170.0"; "180.0"];
        ["2025-01-03 08:00:00"; "2025-01-03"; "176.0"; "175.0"; "170.0"; "180.0"];
        ["2025-01-04 08:00:00"; "2025-01-04"; "175.0"; "175.0"; "170.0"; "180.0"];
        ["2025-01-05 08:00:00"; "2025-01-05"; "173.0"; "178.0"; "170.0"; "180.0"]].
Proof.
  apply (@csv_round_trip sample_pandas dataset1).
  - vm_compute. reflexivity.
  - intros _ fs f Hfs. revert f. revert fs Hfs.
    apply (proj1 (Forall_forall
                    (λ fs : list string, ∀ f, f ∈ fs → CR ∉ list_ascii_of_string f) _)).
    repeat (constructor;
            [apply (proj1 (Forall_forall (λ f : string, CR ∉ list_ascii_of_string f) _));
             compute_done|]).
    constructor.
Defined.

Lemma filter_none {A} (P : A → Prop) `{!∀ x, Decision (P x)} (l : list A) :
  (∀ x, x ∈ l → ¬ P x) → filter P l = [].
Proof.
  induction l as [|x l IH]; intros Hnone; [done|].
  rewrite filter_cons_False by (apply Hnone; left).
  apply IH. intros y Hy. apply Hnone. by right.
Qed.

Lemma date_in_range_empty (a b : Z) (c : cell) : b < a → date_in_range a b c = false.
Proof.
  intros Hlt. destruct c; try done. simpl. apply bool_decide_eq_false. lia.
Qed.

Lemma to_csv_no_rows `{Pandas} (cols : list string) :
  to_csv (mkDataFrame cols []) = string_of_list_ascii (write_row cols).
Proof. unfold to_csv, text_rows. cbn [rows columns map concat]. by rewrite app_nil_r. Qed.

(** C5 as stated fails: in the dataset logged without a date no row
    satisfies the date predicate, whatever the range, and the query raises
    TypeError at line 199 instead of returning a view with no rows. *)
Lemma empty_range_undated_counterexample :
  ¬ (∀ (pandas : Pandas) (df df' : DataFrame) (start_date end_date : pydate),
       coerce_timestamps df = Ok df' →
       (as_date end_date < as_date start_date ∨
        ∀ r, r ∈ rows df' →
             row_in_range df' (as_date start_date) (as_date end_date) r = false) →
       ∃ view,
         range_query df start_date end_date = Ok view ∧
         rows view = [] ∧
         columns view = columns df ∧
         to_excel view = mkWorksheet "FilteredData" (columns df) [] ∧
         to_csv view = string_of_list_ascii (write_row (columns df)) ∧
         decode_csv (encode_utf8 (to_csv view)) = [columns df]).
Proof.
  intros Hclaim.
  destruct (Hclaim sample_pandas dataset_undated dataset_undated
              (PyDate (january_2025 1)) (PyDate (january_2025 3)) eq_refl)
    as (view & Hview & _).
  - right. intros r Hr. repeat (apply elem_of_cons in Hr as [->|Hr]; [done|]).
    by apply elem_of_nil in Hr.
  - vm_compute in Hview. discriminate.
Qed.

(** C5, amended: for a dataset that has no rows or at least one row with a
    date, when no row satisfies the date predicate (in particular when the
    end day is before the start day) the query still returns a view; the
    view has no rows, the workbook has the header and no rows, and the text
    is exactly the record of the column names, which reads back as the
    header alone when no column name holds a carriage return or the line
    terminator is CR LF. *)
Theorem empty_range `{Pandas} (df df' : DataFrame) (start_date end_date : pydate) :
  coerce_timestamps df = Ok df' → has_dates df' →
  (as_date end_date < as_date start_date ∨
   ∀ r, r ∈ rows df' →
        row_in_range df' (as_date start_date) (as_date end_date) r = false) →
  ∃ view,
    range_query df start_date end_date = Ok view ∧
    rows view = [] ∧
    columns view = columns df ∧
    to_excel view = mkWorksheet "FilteredData" (columns df) [] ∧
    to_csv view = string_of_list_ascii (write_row (columns df)) ∧
    ((windows = false → ∀ col, col ∈ columns df → CR ∉ list_ascii_of_string col) →
     decode_csv (encode_utf8 (to_csv view)) = [columns df]).
Proof.
  intros Hc Hdates Hnone.
  destruct (coerce_timestamps_ok df df' Hc) as (Hcols & _ & p & Hp & _).
  assert (filter (λ r, row_in_range df' (as_date start_date) (as_date end_date) r)
            (rows df') = []) as Hempty.
  { apply filter_none. intros r Hr. apply Is_true_false_2.
    destruct Hnone as [Hlt|Hnone]; [|by apply Hnone].
    rewrite (row_in_range_at df' p) by done. by apply date_in_range_empty. }
  eexists. split; [by apply range_query_ok|].
  rewrite Hempty, Hcols. cbn [rows columns]. repeat split.
  - apply to_csv_no_rows.
  - intros Hcr. rewrite csv_round_trip_rows; [done|].
    cbn [text_rows rows columns map]. constructor; [|done].
    apply Forall_forall. intros col Hcol Hw. by apply Hcr.
Qed.

Lemma empty_range_witness :
  ∃ view,
    @range_query sample_pandas dataset1 (PyDate (january_2025 4)) (PyDate (january_2025 2))
      = Ok view ∧
    rows view = [] ∧
    columns view = columns dataset1 ∧
    to_excel view = mkWorksheet "FilteredData" (columns dataset1) [] ∧
    @to_csv sample_pandas view
      = string_of_list_ascii (@write_row sample_pandas (columns dataset1)) ∧
    ((@windows sample_pandas = false →
      ∀ col, col ∈ columns dataset1 → CR ∉ list_ascii_of_string col) →
     decode_csv (encode_utf8 (@to_csv sample_pandas view)) = [columns dataset1]).
Proof.
  apply (@empty_range sample_pandas dataset1 dataset1
           (PyDate (january_2025 4)) (PyDate (january_2025 2))).
  - vm_compute. reflexivity.
  - apply dataset1_has_dates.
  - left. vm_compute. reflexivity.
Defined.

(** ** The script on the store *)

Lemma script_bind_unfold {A B} (m : script A) (f : A → script B) (σ : store) :
  (m ≫= f) σ =
    match m σ with
    | (Ok a, σ') => f a σ'
    | (Raise e, σ') => (Raise e, σ')
    end.
Proof. done. Qed.

Lemma keeps_bind {A B} (σ0 : store) (m : script A) (f : A → script B)
    (Q : A → Prop) (R : B → Prop) :
  keeps σ0 m Q → (∀ a, Q a → keeps σ0 (f a) R) → keeps σ0 (m ≫= f) R.
Proof.
  intros Hm Hf σ Hσ. rewrite script_bind_unfold.
  destruct (Hm σ Hσ) as [Hsub HQ]. destruct (m σ) as [[a|e] σ'].
  - apply (Hf a); [by apply HQ|done].
  - split; [done|]. discriminate.
Qed.

Lemma keeps_weaken {A} (σ0 : store) (m : script A) (Q R : A → Prop) :
  keeps σ0 m Q → (∀ a, Q a → R a) → keeps σ0 m R.
Proof.
  intros Hm HQR σ Hσ. destruct (Hm σ Hσ) as [Hsub HQ].
  split; [done|]. intros a Ha. by apply HQR, HQ.
Qed.

Lemma keeps_ret {A} (σ0 : store) (a : A) : keeps σ0 (mret a) (λ _, True).
Proof. by intros σ Hσ. Qed.

Lemma keeps_lift {A} (σ0 : store) (r : result A) : keeps σ0 (lift r) (λ _, True).
Proof. by intros σ Hσ. Qed.

Lemma keeps_deref (σ0 : store) (l : nat) : keeps σ0 (deref l) (λ _, True).
Proof. intros σ Hσ. unfold deref. by destruct (σ !! l). Qed.

(** A new object is none of the objects that were there. *)
Lemma keeps_alloc (σ0 : store) (df : DataFrame) :
  keeps σ0 (alloc df) (λ l, σ0 !! l = None).
Proof.
  intros σ Hσ. unfold alloc. cbn [fst snd].
  assert (σ0 !! fresh (dom σ) = None) as Hfresh.
  { destruct (σ0 !! fresh (dom σ)) as [df0|] eqn:Hl; [|done].
    exfalso. apply (is_fresh (dom σ)). apply elem_of_dom. exists df0.
    by eapply lookup_weaken. }
  split.
  - by apply insert_subseteq_r.
  - by intros a [= <-].
Qed.

(** Writing into an object that was not there leaves the others alone. *)
Lemma keeps_assign (σ0 : store) (l : nat) (df : DataFrame) :
  σ0 !! l = None → keeps σ0 (assign l df) (λ _, True).
Proof. intros Hl σ Hσ. unfold assign. split; [by apply insert_subseteq_r|done]. Qed.

Lemma keeps_df_copy (σ0 : store) (l : nat) : keeps σ0 (df_copy l) (λ l', σ0 !! l' = None).
Proof.
  unfold df_copy. eapply keeps_bind; [apply keeps_deref|].
  intros df _. apply keeps_alloc.
Qed.

Lemma keeps_df_getitem (σ0 : store) (l : nat) (col : string) :
  keeps σ0 (df_getitem l col) (λ _, True).
Proof.
  unfold df_getitem. eapply keeps_bind; [apply keeps_deref|].
  intros df _. apply keeps_lift.
Qed.

Lemma keeps_df_setitem (σ0 : store) (l : nat) (col : string) (s : list cell) :
  σ0 !! l = None → keeps σ0 (df_setitem l col s) (λ _, True).
Proof.
  intros Hl. unfold df_setitem. eapply keeps_bind; [apply keeps_deref|].
  intros df _. eapply keeps_bind; [apply keeps_lift|].
  intros df' _. by apply keeps_assign.
Qed.

Lemma keeps_df_select (σ0 : store) (l : nat) (mask : list bool) :
  keeps σ0 (df_select l mask) (λ _, True).
Proof.
  unfold df_select. eapply keeps_bind; [apply keeps_deref|].
  intros df _. eapply keeps_bind; [apply keeps_lift|].
  intros df' _. eapply keeps_weaken; [apply keeps_alloc|done].
Qed.

Lemma keeps_export_excel (σ0 : store) (l : nat) : keeps σ0 (export_excel l) (λ _, True).
Proof.
  unfold export_excel. eapply keeps_bind; [apply keeps_deref|].
  intros df _. apply keeps_ret.
Qed.

Lemma keeps_export_csv `{Pandas} (σ0 : store) (l : nat) :
  keeps σ0 (export_csv l) (λ _, True).
Proof.
  unfold export_csv. eapply keeps_bind; [apply keeps_deref|].
  intros df _. apply keeps_ret.
Qed.

Lemma keeps_chart `{Pandas} (σ0 : store) (l : nat) (selected_measures : list string) :
  keeps σ0 (chart l selected_measures) (λ _, True).
Proof.
  unfold chart. eapply keeps_bind; [apply keeps_deref|].
  intros df _. apply keeps_lift.
Qed.

(** The whole query: the only object written into is the copy. *)
Lemma keeps_run_query `{Pandas} (σ0 : store) (measurement_map : gmap string string)
    (datasets : list (string * nat)) (selected_measures : list string)
    (start_date end_date : pydate) :
  keeps σ0 (run_query measurement_map datasets selected_measures start_date end_date)
    (λ _, True).
Proof.
  unfold run_query. destruct selected_measures as [|first rest]; [apply keeps_ret|].
  eapply keeps_bind; [apply keeps_lift|]. intros dataset_name _.
  eapply keeps_bind; [apply keeps_lift|]. intros stored _.
  eapply keeps_bind; [apply keeps_df_copy|]. intros df Hdf.
  eapply keeps_bind; [apply keeps_df_getitem|]. intros s _.
  eapply keeps_bind; [apply keeps_lift|]. intros s' _.
  eapply keeps_bind; [by apply keeps_df_setitem|]. intros _ _.
  eapply keeps_bind; [apply keeps_df_getitem|]. intros d _.
  eapply keeps_bind; [apply keeps_lift|]. intros d' _.
  eapply keeps_bind; [by apply keeps_df_setitem|]. intros _ _.
  eapply keeps_bind; [apply keeps_df_getitem|]. intros bounds _.
  eapply keeps_bind; [apply keeps_lift|]. intros _ _.
  eapply keeps_bind; [apply keeps_df_getitem|]. intros d1 _.
  eapply keeps_bind; [apply keeps_lift|]. intros a _.
  eapply keeps_bind; [apply keeps_lift|]. intros after_start _.
  eapply keeps_bind; [apply keeps_df_getitem|]. intros d2 _.
  eapply keeps_bind; [apply keeps_lift|]. intros b _.
  eapply keeps_bind; [apply keeps_lift|]. intros before_end _.
  eapply keeps_bind; [apply keeps_df_select|]. intros view _.
  eapply keeps_bind; [apply keeps_chart|]. intros _ _.
  eapply keeps_bind; [apply keeps_export_excel|]. intros excel_data _.
  eapply keeps_bind; [apply keeps_export_csv|]. intros csv_data _.
  apply keeps_ret.
Qed.

(** C9: whatever the selection and the range, and whether the query
    returns or raises, every frame object that was in the store before the
    query is in the store after it with the same value. *)
Theorem table_store_unchanged `{Pandas} (measurement_map : gmap string string)
    (datasets : list (string * nat)) (selected_measures : list string)
    (start_date end_date : pydate) (σ : store) (l : nat) (df : DataFrame) :
  σ !! l = Some df →
  (run_query measurement_map datasets selected_measures start_date end_date σ).2 !! l
  = Some df.
Proof.
  intros Hl.
  destruct (keeps_run_query σ measurement_map datasets selected_measures
              start_date end_date σ) as [Hsub _]; [done|].
  by eapply lookup_weaken.
Qed.

Lemma table_store_unchanged_witness :
  (@run_query sample_pandas (build_measurement_map [("dataset1", dataset1)])
     sample_datasets ["OvenA"] (PyDate (january_2025 2)) (PyDate (january_2025 3))
     sample_store).2 !! 0%nat
  = Some dataset1.
Proof.
  apply (@table_store_unchanged sample_pandas). reflexivity.
Defined.

(** *** The script computes the query of the stored frame *)

Lemma lift_bind {A B} (r : result A) (f : A → script B) (σ : store) :
  (lift r ≫= f) σ = match r with Ok a => f a σ | Raise e => (Raise e, σ) end.
Proof. rewrite script_bind_unfold. unfold lift. by destruct r. Qed.

Lemma df_copy_at (l : nat) (σ : store) (df : DataFrame) :
  σ !! l = Some df →
  df_copy l σ = (Ok (fresh (dom σ)), <[fresh (dom σ):=df]> σ).
Proof. intros Hl. unfold df_copy. rewrite script_bind_unfold. unfold deref. by rewrite Hl. Qed.

Lemma df_getitem_at (l : nat) (col : string) (σ : store) (df : DataFrame) :
  σ !! l = Some df → df_getitem l col σ = (getitem df col, σ).
Proof.
  intros Hl. unfold df_getitem. rewrite script_bind_unfold. unfold deref. by rewrite Hl.
Qed.

Lemma df_setitem_at (l : nat) (col : string) (s : list cell) (σ : store) (df : DataFrame) :
  σ !! l = Some df →
  df_setitem l col s σ =
    match setitem df col s with
    | Ok df' => (Ok tt, <[l:=df']> σ)
    | Raise e => (Raise e, σ)
    end.
Proof.
  intros Hl. unfold df_setitem. rewrite script_bind_unfold. unfold deref. rewrite Hl.
  rewrite lift_bind. by destruct (setitem df col s).
Qed.

Lemma df_select_at (l : nat) (mask : list bool) (σ : store) (df : DataFrame) :
  σ !! l = Some df →
  df_select l mask σ =
    match select_rows df mask with
    | Ok view => (Ok (fresh (dom σ)), <[fresh (dom σ):=view]> σ)
    | Raise e => (Raise e, σ)
    end.
Proof.
  intros Hl. unfold df_select. rewrite script_bind_unfold. unfold deref. rewrite Hl.
  rewrite lift_bind. by destruct (select_rows df mask).
Qed.

Lemma export_excel_at (l : nat) (σ : store) (df : DataFrame) :
  σ !! l = Some df → export_excel l σ = (Ok (to_excel df), σ).
Proof.
  intros Hl. unfold export_excel. rewrite script_bind_unfold. unfold deref. by rewrite Hl.
Qed.

Lemma export_csv_at `{Pandas} (l : nat) (σ : store) (df : DataFrame) :
  σ !! l = Some df → export_csv l σ = (Ok (encode_utf8 (to_csv df)), σ).
Proof.
  intros Hl. unfold export_csv. rewrite script_bind_unfold. unfold deref. by rewrite Hl.
Qed.

Lemma chart_at `{Pandas} (l : nat) (selected_measures : list string) (σ : store)
    (df : DataFrame) :
  σ !! l = Some df → chart l selected_measures σ = (draw_chart df selected_measures, σ).
Proof.
  intros Hl. unfold chart. rewrite script_bind_unfold. unfold deref. by rewrite Hl.
Qed.

(** When the first selected measurement resolves to a stored frame, the
    script goes through the steps of the query on that frame: it raises
    what the coercion, the date picker, the filter or the chart raises, in
    that order, and otherwise returns a new object holding the view
    together with its two exports. *)
Lemma run_query_range_query `{Pandas} (measurement_map : gmap string string)
    (datasets : list (string * nat)) (first : string) (rest : list string)
    (start_date end_date : pydate) (σ : store) (dataset_name : string) (l : nat)
    (df : DataFrame) :
  map_get measurement_map first = Ok dataset_name →
  dict_get datasets dataset_name = Ok l →
  σ !! l = Some df →
  let run := run_query measurement_map datasets (first :: rest) start_date end_date σ in
  match coerce_timestamps df with
  | Raise e => run.1 = Raise e
  | Ok df' =>
      match default_range df' with
      | Raise e => run.1 = Raise e
      | Ok _ =>
          match filter_range df' (as_date start_date) (as_date end_date) with
          | Raise e => run.1 = Raise e
          | Ok view =>
              match draw_chart view (first :: rest) with
              | Raise e => run.1 = Raise e
              | Ok _ =>
                  ∃ l', run.1 = Ok (Some (l', to_excel view, encode_utf8 (to_csv view))) ∧
                        run.2 !! l' = Some view
              end
          end
      end
  end.
Proof.
  intros Hname Hl Hdf. cbn zeta. unfold run_query, coerce_timestamps.
  rewrite lift_bind, Hname, lift_bind, Hl.
  rewrite script_bind_unfold, (df_copy_at l σ df Hdf).
  set (c := fresh (dom σ)). set (σ1 := <[c:=df]> σ).
  assert (σ1 !! c = Some df) as Hc by apply lookup_insert_eq.
  rewrite script_bind_unfold, (df_getitem_at c _ σ1 df Hc).
  destruct (getitem df "DATETIME") as [s|e]; cbn [mbind result_bind mret result_ret]; [|done].
  rewrite lift_bind. destruct (to_datetime s) as [s'|e]; cbn [mbind result_bind mret result_ret]; [|done].
  rewrite script_bind_unfold, (df_setitem_at c _ _ σ1 df Hc).
  destruct (setitem df "DATETIME" s') as [df1|e]; cbn [mbind result_bind mret result_ret]; [|done].
  set (σ2 := <[c:=df1]> σ1).
  assert (σ2 !! c = Some df1) as Hc1 by apply lookup_insert_eq.
  rewrite script_bind_unfold, (df_getitem_at c _ σ2 df1 Hc1).
  destruct (getitem df1 "DATE") as [d|e]; cbn [mbind result_bind mret result_ret]; [|done].
  rewrite lift_bind. destruct (to_datetime d) as [d'|e]; cbn [mbind result_bind mret result_ret]; [|done].
  rewrite script_bind_unfold, (df_setitem_at c _ _ σ2 df1 Hc1).
  destruct (setitem df1 "DATE" d') as [df2|e]; cbn [mbind result_bind mret result_ret]; [|done].
  set (σ3 := <[c:=df2]> σ2).
  assert (σ3 !! c = Some df2) as Hc2 by apply lookup_insert_eq.
  unfold default_range, filter_range, date_mask.
  rewrite script_bind_unfold, (df_getitem_at c _ σ3 df2 Hc2).
  destruct (getitem df2 "DATE") as [d1|e] eqn:Hd1;
    cbn [mbind result_bind mret result_ret]; [|done].
  rewrite lift_bind.
  destruct (date_input d1) as [bounds|e]; [|done].
  rewrite script_bind_unfold, (df_getitem_at c _ σ3 df2 Hc2), Hd1.
  rewrite lift_bind.
  destruct (dt_date d1) as [a|e] eqn:Ha; cbn [mbind result_bind mret result_ret]; [|done].
  rewrite lift_bind.
  destruct (ge_date a _) as [after_start|e];
    cbn [mbind result_bind mret result_ret]; [|done].
  rewrite script_bind_unfold, (df_getitem_at c _ σ3 df2 Hc2), Hd1.
  rewrite lift_bind, Ha.
  rewrite lift_bind.
  destruct (le_date a _) as [before_end|e];
    cbn [mbind result_bind mret result_ret]; [|done].
  rewrite script_bind_unfold, (df_select_at c _ σ3 df2 Hc2).
  destruct (select_rows df2 _) as [view|e]; [|done].
  set (v := fresh (dom σ3)). set (σ4 := <[v:=view]> σ3).
  assert (σ4 !! v = Some view) as Hv by apply lookup_insert_eq.
  rewrite script_bind_unfold, (chart_at v _ σ4 view Hv).
  destruct (draw_chart view (first :: rest)) as [drawn|e]; [|done].
  rewrite script_bind_unfold, (export_excel_at v σ4 view Hv).
  rewrite script_bind_unfold, (export_csv_at v σ4 view Hv).
  exists v. split; [done|]. exact Hv.
Qed.

(** ** The scenarios of the specification, run *)

(** Five days of readings, range 2025-01-02 to 2025-01-03: the two rows of
    those days, in source order, and a text of three lines. *)
Example scenario_two_days :
  match @range_query sample_pandas dataset1
          (PyDate (january_2025 2)) (PyDate (january_2025 3)) with
  | Ok view =>
      map fst (rows view) = [1%nat; 2%nat] ∧
      decode_csv (encode_utf8 (@to_csv sample_pandas view)) =
        [["DATETIME"; "DATE"; "OvenA"; "OvenB"; "LCL"; "UCL"];
         ["2025-01-02 08:00:00"; "2025-01-02"; "174.0"; "177.0"; "170.0"; "180.0"];
         ["2025-01-03 08:00:00"; "2025-01-03"; "176.0"; "175.0"; "170.0"; "180.0"]] ∧
      length (List.filter (λ c, bool_decide (c = LF))
                (list_ascii_of_string (@to_csv sample_pandas view))) = 3%nat
  | Raise _ => False
  end.
Proof. vm_compute. done. Qed.

(** A [datetime] bound counts by its calendar day: noon of 2025-01-03 as the
    end still keeps the row of 2025-01-03. *)
Example scenario_datetime_bound :
  match @range_query sample_pandas dataset1 (PyDate (january_2025 3))
          (PyDateTime (january_2025 3 * us_per_day + 12 * 3600 * 1000000)) with
  | Ok view => map fst (rows view) = [2%nat]
  | Raise _ => False
  end.
Proof. vm_compute. done. Qed.

(** A measurement of one dataset resolves to it; a name that is no column,
    or a reserved one, is not a key. *)
Example scenario_resolution :
  map_get (build_measurement_map [("dataset1", dataset1)]) "OvenA" = Ok "dataset1" ∧
  map_get (build_measurement_map [("dataset1", dataset1)]) "OvenZ" = Raise (KeyError "OvenZ") ∧
  map_get (build_measurement_map [("dataset1", dataset1)]) "LCL" = Raise (KeyError "LCL").
Proof. vm_compute. done. Qed.

(** Quoting: a comma, a quote and a line break inside a field come back. *)
Example scenario_quoting :
  let records := [["a,b"; String quotechar "c"]; [EmptyString]; ["x"; String LF "y"; EmptyString]] in
  read_csv (concat (map (@write_row sample_pandas) records)) = records.
Proof. vm_compute. done. Qed.

(** The script on the sample session: the view is a new object and the
    stored frame is as loaded. *)
Example scenario_session :
  let run := @run_query sample_pandas (build_measurement_map [("dataset1", dataset1)])
               sample_datasets ["OvenA"; "OvenB"]
               (PyDate (january_2025 2)) (PyDate (january_2025 3)) sample_store in
  match run.1 with
  | Ok (Some (view, _, _)) =>
      view ≠ 0%nat ∧ (rows <$> run.2 !! view) = Some [reading 1 2 174 177; reading 2 3 176 175]
      ∧ run.2 !! 0%nat = Some dataset1
  | _ => False
  end.
Proof. vm_compute. done. Qed.

(** Readings logged without a date: the coercion succeeds, the date picker
    has no span to open on, and line 199 alone would raise as well. *)
Example scenario_undated :
  @coerce_timestamps sample_pandas dataset_undated = Ok dataset_undated ∧
  default_range dataset_undated = Raise ValueError ∧
  @range_query sample_pandas dataset_undated
    (PyDate (january_2025 1)) (PyDate (january_2025 3)) = Raise TypeError ∧
  (@run_query sample_pandas (build_measurement_map [("dataset4", dataset_undated)])
     [("dataset4", 0%nat)] ["OvenD"] (PyDate (january_2025 1)) (PyDate (january_2025 3))
     {[ 0%nat := dataset_undated ]}).1 = Raise ValueError.
Proof. vm_compute. done. Qed.

(** Two measurements of two datasets: the frame of the first has no column
    for the second, and the chart raises. *)
Example scenario_two_datasets :
  (@run_query sample_pandas
     (build_measurement_map [("dataset1", dataset1); ("dataset4", dataset_undated)])
     [("dataset1", 0%nat); ("dataset4", 1%nat)] ["OvenA"; "OvenD"]
     (PyDate (january_2025 2)) (PyDate (january_2025 3))
     {[ 0%nat := dataset1; 1%nat := dataset_undated ]}).1 = Raise ValueError.
Proof. vm_compute. done. Qed.

(** With an empty range the same selection raises nothing: no chart is
    drawn for an empty view. *)
Example scenario_two_datasets_empty_range :
  match (@run_query sample_pandas
           (build_measurement_map [("dataset1", dataset1); ("dataset4", dataset_undated)])
           [("dataset1", 0%nat); ("dataset4", 1%nat)] ["OvenA"; "OvenD"]
           (PyDate (january_2025 4)) (PyDate (january_2025 2))
           {[ 0%nat := dataset1; 1%nat := dataset_undated ]}).1 with
  | Ok (Some (_, excel_data, csv_data)) =>
      body excel_data = [] ∧ decode_csv csv_data = [columns dataset1]
  | _ => False
  end.
Proof. vm_compute. done. Qed.

(** A whole number is written without a decimal point; where lines end in
    LF a carriage return inside a text is written as it is and ends the
    record when the text is read back. *)
Example scenario_carriage_return :
  @to_csv sample_pandas dataset_remark
  = "OvenA,Remark" +:+ String LF ("174,a" +:+ String CR ("b" +:+ String LF EmptyString)) ∧
  decode_csv (encode_utf8 (@to_csv sample_pandas dataset_remark))
  = [["OvenA"; "Remark"]; ["174"; "a"]; ["b"]].
Proof. vm_compute. done. Qed.

(** * Part III: further properties of the script *)

(** ** The index: soundness and the order of the options *)

Lemma dict_get_unique {V} (d : list (string * V)) (k : string) (v : V) :
  NoDup (map fst d) → (k, v) ∈ d → dict_get d k = Ok v.
Proof.
  induction d as [|[k0 v0] d IH]; intros Hnd Hin; [by apply elem_of_nil in Hin|].
  cbn [map fst] in Hnd. apply NoDup_cons in Hnd as [Hk0 Hnd].
  cbn [dict_get]. apply elem_of_cons in Hin as [[= <- <-]|Hin].
  - by rewrite decide_True.
  - rewrite decide_False; [by apply IH|].
    intros ->. apply Hk0. apply list_elem_of_fmap. by exists (k, v).
Qed.

(** X1: a key of the index is a non-reserved column name, and the dataset it
    maps to is a loaded dataset that has that column. *)
Theorem index_sound (datasets : list (string * DataFrame)) (C name : string) :
  build_measurement_map datasets !! C = Some name →
  (C ∉ exclude_cols) ∧ ∃ df, (name, df) ∈ datasets ∧ C ∈ columns df.
Proof.
  unfold build_measurement_map. intros Hv.
  apply index_datasets_values in Hv as [Hv|(df & Hin & HC & Hres)].
  - by rewrite lookup_empty in Hv.
  - split; [done|]. by exists df.
Qed.

Lemma index_sound_witness :
  ("OvenB" ∉ exclude_cols) ∧
  ∃ df, ("dataset2", df) ∈ three_datasets ∧ "OvenB" ∈ columns df.
Proof. apply (index_sound three_datasets "OvenB" "dataset2"). vm_compute. reflexivity. Defined.

(** X2: with dataset names that are distinct, as the keys of a dictionary
    are, the frame found under the name a measurement resolves to has that
    measurement among its columns. *)
Theorem resolved_frame_has_measurement (datasets : list (string * DataFrame))
    (measure dataset_name : string) :
  NoDup (map fst datasets) →
  map_get (build_measurement_map datasets) measure = Ok dataset_name →
  ∃ df, dict_get datasets dataset_name = Ok df ∧ measure ∈ columns df.
Proof.
  intros Hnd Hget. unfold map_get, build_measurement_map in Hget.
  destruct (index_datasets datasets ∅ !! measure) as [v|] eqn:Hv; [|discriminate].
  injection Hget as ->.
  apply index_datasets_values in Hv as [Hv|(df & Hin & HC & _)].
  - by rewrite lookup_empty in Hv.
  - exists df. split; [by apply dict_get_unique|done].
Qed.

Lemma resolved_frame_has_measurement_witness :
  ∃ df, dict_get three_datasets "dataset3" = Ok df ∧ "OvenA" ∈ columns df.
Proof.
  apply (resolved_frame_has_measurement three_datasets "OvenA" "dataset3").
  - compute_done.
  - vm_compute. reflexivity.
Defined.

Lemma dict_get_Ok_elem_of {V} (d : list (string * V)) (k : string) (v : V) :
  dict_get d k = Ok v → (k, v) ∈ d.
Proof.
  induction d as [|[k0 v0] d IH]; [discriminate|]. cbn [dict_get].
  destruct (decide (k0 = k)) as [->|Hne].
  - intros [= ->]. left.
  - intros Hd. right. by apply IH.
Qed.

Lemma dict_get_set {V} (d : list (string * V)) (k k' : string) (v : V) :
  dict_get (dict_set d k v) k' = if decide (k = k') then Ok v else dict_get d k'.
Proof.
  induction d as [|[k0 v0] d IH]; cbn [dict_set dict_get].
  - destruct (decide (k = k')); [done|done].
  - destruct (decide (k0 = k)) as [->|Hne]; cbn [dict_get].
    + destruct (decide (k = k')); done.
    + rewrite IH. destruct (decide (k0 = k')) as [->|]; [|done].
      by rewrite decide_False.
Qed.

Lemma map_get_insert (m : gmap string string) (k k' v : string) :
  map_get (<[k:=v]> m) k' = if decide (k = k') then Ok v else map_get m k'.
Proof.
  unfold map_get. destruct (decide (k = k')) as [->|Hne].
  - by rewrite lookup_insert_eq.
  - by rewrite lookup_insert_ne.
Qed.

Lemma ordered_index_columns_get (name : string) (cols : list string)
    (d : list (string * string)) (m : gmap string string) :
  (∀ k, dict_get d k = map_get m k) →
  ∀ k, dict_get (ordered_index_columns name cols d) k
       = map_get (index_columns name cols m) k.
Proof.
  unfold ordered_index_columns, index_columns.
  revert d m. induction cols as [|c cols IH]; intros d m Hdm; [done|].
  cbn [foldl]. apply IH. intros k. destruct (decide (c ∈ exclude_cols)); [done|].
  by rewrite dict_get_set, map_get_insert, Hdm.
Qed.

Lemma dict_set_keys {V} (d : list (string * V)) (k : string) (v : V) :
  map fst (dict_set d k v)
  = if decide (k ∈ map fst d) then map fst d else map fst d ++ [k].
Proof.
  induction d as [|[k0 v0] d IH]; [done|]. cbn [dict_set map fst].
  destruct (decide (k0 = k)) as [->|Hne]; cbn [map fst].
  - rewrite decide_True; [done|left].
  - rewrite IH. destruct (decide (k ∈ map fst d)) as [Hin|Hin].
    + rewrite decide_True; [done|by right].
    + rewrite decide_False; [done|]. intros [?|?]%elem_of_cons; congruence.
Qed.

Lemma ordered_index_columns_keys (name : string) (cols : list string)
    (d : list (string * string)) :
  map fst (ordered_index_columns name cols d)
  = foldl (λ keys col, if decide (col ∈ keys) then keys else keys ++ [col])
      (map fst d) (filter (λ col, col ∉ exclude_cols) cols).
Proof.
  unfold ordered_index_columns. revert d.
  induction cols as [|c cols IH]; intros d; [done|]. cbn [foldl].
  destruct (decide (c ∈ exclude_cols)) as [Hc|Hc].
  - rewrite filter_cons_False by tauto. apply IH.
  - rewrite filter_cons_True by done. cbn [foldl]. by rewrite IH, dict_set_keys.
Qed.

Lemma ordered_measurement_map_keys (datasets : list (string * DataFrame))
    (d : list (string * string)) :
  map fst (foldl (λ d (item : string * DataFrame),
                    ordered_index_columns item.1 (columns item.2) d) d datasets)
  = foldl (λ keys col, if decide (col ∈ keys) then keys else keys ++ [col])
      (map fst d) (measurement_columns datasets).
Proof.
  unfold measurement_columns. revert d.
  induction datasets as [|item ds IH]; intros d; [done|].
  cbn [foldl map concat]. rewrite filter_app, foldl_app, IH.
  by rewrite ordered_index_columns_keys.
Qed.

(** Appending each new name once is keeping first occurrences. *)
Lemma first_occurrences (l : list string) :
  foldl (λ keys col, if decide (col ∈ keys) then keys else keys ++ [col]) [] l
  = reverse (remove_dups (reverse l)).
Proof.
  induction l as [|x l IH] using rev_ind; [done|].
  rewrite foldl_app. cbn [foldl]. rewrite IH, reverse_snoc. cbn [remove_dups].
  destruct (decide_rel elem_of x (reverse l)) as [Hin|Hin].
  - rewrite decide_True; [done|].
    by rewrite elem_of_reverse, elem_of_remove_dups.
  - rewrite decide_False, reverse_cons; [done|].
    by rewrite elem_of_reverse, elem_of_remove_dups.
Qed.

Lemma ordered_get_agrees (datasets : list (string * DataFrame)) (key : string) :
  dict_get (ordered_measurement_map datasets) key
  = map_get (build_measurement_map datasets) key.
Proof.
  unfold ordered_measurement_map, build_measurement_map, index_datasets.
  assert (∀ k, dict_get ([] : list (string * string)) k = map_get ∅ k) as Hinit.
  { intros k. unfold map_get. by rewrite lookup_empty. }
  revert Hinit. generalize (∅ : gmap string string).
  generalize ([] : list (string * string)).
  induction datasets as [|item ds IH]; intros d m Hdm; [done|].
  cbn [foldl]. apply IH. by apply ordered_index_columns_get.
Qed.

(** X3: the insertion-ordered dictionary the script builds and the finite
    map used for the index hold the same entries: a name is a key of one
    exactly when it is a key of the other, with the same dataset name. *)
Theorem ordered_measurement_map_entries (datasets : list (string * DataFrame))
    (key dataset_name : string) :
  (key, dataset_name) ∈ ordered_measurement_map datasets
  ↔ build_measurement_map datasets !! key = Some dataset_name.
Proof.
  pose proof (ordered_get_agrees datasets key) as Hget.
  assert (NoDup (map fst (ordered_measurement_map datasets))) as Hnd.
  { unfold ordered_measurement_map.
    rewrite ordered_measurement_map_keys, first_occurrences, reverse_Permutation.
    apply NoDup_remove_dups. }
  unfold map_get in Hget. split.
  - intros Hin. rewrite (dict_get_unique _ _ _ Hnd Hin) in Hget.
    destruct (build_measurement_map datasets !! key); [|discriminate].
    by injection Hget as ->.
  - intros Hm. rewrite Hm in Hget. by apply dict_get_Ok_elem_of.
Qed.

(** X4: the options of the selector are the non-reserved column names of
    the datasets in load order and schema order, each one once, at the
    place of its first occurrence. *)
Theorem options_first_occurrences (datasets : list (string * DataFrame)) :
  options datasets = reverse (remove_dups (reverse (measurement_columns datasets)))
  ∧ NoDup (options datasets).
Proof.
  assert (options datasets
          = reverse (remove_dups (reverse (measurement_columns datasets)))) as ->.
  { unfold options, ordered_measurement_map.
    by rewrite ordered_measurement_map_keys, first_occurrences. }
  split; [done|]. rewrite reverse_Permutation. apply NoDup_remove_dups.
Qed.

(** ** The range query: what it keeps, what it raises, how it composes *)

Lemma filter_ext_elem_of {A} (P Q : A → Prop) `{!∀ x, Decision (P x), !∀ x, Decision (Q x)}
    (l : list A) :
  (∀ x, x ∈ l → P x ↔ Q x) → filter P l = filter Q l.
Proof.
  induction l as [|x l IH]; intros Heq; [done|].
  assert (filter P l = filter Q l) as IH' by (apply IH; intros y Hy; apply Heq; by right).
  destruct (decide (P x)) as [HP|HP].
  - rewrite !filter_cons_True; [by rewrite IH'| |done]. apply Heq; [left|done].
  - rewrite !filter_cons_False; [done| |done]. intros HQ. apply HP, Heq; [left|done].
Qed.

Lemma to_datetime_cells_fixed `{Pandas} (column s : list cell) :
  Forall (λ c, datetime_like c) s → to_datetime_cells column s = Ok s.
Proof.
  induction 1 as [|c s Hc _ IH]; [done|]. cbn [to_datetime_cells].
  by rewrite to_datetime_cell_fixed, IH.
Qed.

Lemma to_datetime_fixed `{Pandas} (s : list cell) :
  Forall (λ c, datetime_like c) s → to_datetime s = Ok s.
Proof. apply to_datetime_cells_fixed. Qed.

Lemma assign_same_column (p : nat) (rs : list (nat * list cell)) :
  zip_with (λ (r : nat * list cell) v, (r.1, <[p:=v]> r.2)) rs (map (cell_at p) rs) = rs.
Proof.
  induction rs as [|[l cs] rs IH]; [done|]. cbn [map zip_with fst snd]. rewrite IH.
  f_equal. f_equal. unfold cell_at. cbn [snd].
  destruct (cs !! p) as [c|] eqn:Hp; cbn [default].
  - by apply list_insert_id.
  - apply list_insert_ge. by apply lookup_ge_None.
Qed.

Lemma frame_eta (df : DataFrame) : mkDataFrame (columns df) (rows df) = df.
Proof. by destruct df. Qed.

(** A frame whose two timestamp columns hold datetime cells is left as it
    is by lines 177-178. *)
Lemma coerce_timestamps_fixed `{Pandas} (df : DataFrame) (p1 p2 : nat) :
  column_position df "DATETIME" = Ok p1 → column_position df "DATE" = Ok p2 →
  Forall (λ c, datetime_like c) (map (cell_at p1) (rows df)) →
  Forall (λ c, datetime_like c) (map (cell_at p2) (rows df)) →
  coerce_timestamps df = Ok df.
Proof.
  intros Hp1 Hp2 H1 H2. unfold coerce_timestamps, getitem.
  rewrite Hp1. cbn [mbind result_bind mret result_ret].
  rewrite to_datetime_fixed by done. cbn [mbind result_bind].
  rewrite (setitem_existing df "DATETIME" _ p1) by (done || by rewrite length_map).
  cbn [mbind result_bind]. rewrite assign_same_column, frame_eta, Hp2.
  cbn [mbind result_bind mret result_ret].
  rewrite to_datetime_fixed by done. cbn [mbind result_bind].
  rewrite (setitem_existing df "DATE" _ p2) by (done || by rewrite length_map).
  by rewrite assign_same_column, frame_eta.
Qed.

(** After lines 177-178 both timestamp columns hold datetime cells. *)
Lemma coerce_timestamps_datetime `{Pandas} (df df' : DataFrame) :
  coerce_timestamps df = Ok df' →
  ∃ p1 p2,
    column_position df' "DATETIME" = Ok p1 ∧ column_position df' "DATE" = Ok p2 ∧
    Forall (λ c, datetime_like c) (map (cell_at p1) (rows df')) ∧
    Forall (λ c, datetime_like c) (map (cell_at p2) (rows df')).
Proof.
  intros Hc. destruct (coerce_timestamps_ok df df' Hc) as (Hcols & _ & _).
  destruct (coerce_timestamps_rows df df' Hc) as (p1 & p2 & Hp1 & Hp2 & Hrows).
  exists p1, p2. rewrite !(column_position_columns df df') by done.
  split; [done|]. split; [done|].
  split; apply Forall_fmap, Forall_forall; intros r' Hr';
    apply list_elem_of_lookup in Hr' as [i Hi];
    destruct (Forall2_lookup_r _ _ _ _ _ Hrows Hi) as (r & _ & _ & _ & H1 & H2 & _);
    cbn [compose]; by eapply to_datetime_cell_datetime_like.
Qed.

(** X5: coercion is idempotent: coercing the coerced frame returns it
    unchanged. *)
Theorem coerce_timestamps_idempotent `{Pandas} (df df' : DataFrame) :
  coerce_timestamps df = Ok df' → coerce_timestamps df' = Ok df'.
Proof.
  intros Hc. destruct (coerce_timestamps_datetime df df' Hc) as (p1 & p2 & ? & ? & ? & ?).
  by apply (coerce_timestamps_fixed df' p1 p2).
Qed.

Lemma coerce_timestamps_idempotent_witness :
  @coerce_timestamps sample_pandas dataset1 = Ok dataset1.
Proof.
  apply (@coerce_timestamps_idempotent sample_pandas dataset1 dataset1).
  vm_compute. reflexivity.
Defined.

Lemma row_in_range_columns (df df' : DataFrame) (a b : Z) (r : nat * list cell) :
  columns df' = columns df → row_in_range df' a b r = row_in_range df a b r.
Proof. intros Hcols. unfold row_in_range. by rewrite (column_position_columns df df'). Qed.

Lemma Forall_map_filter {A B} (Q : B → Prop) (f : A → B) (P : A → Prop)
    `{!∀ x, Decision (P x)} (l : list A) :
  Forall Q (map f l) → Forall Q (map f (filter P l)).
Proof.
  induction l as [|x l IH]; [done|]. cbn [map]. intros [Hx Hl]%Forall_cons.
  destruct (decide (P x)).
  - rewrite filter_cons_True by done. cbn [map]. constructor; [done|by apply IH].
  - rewrite filter_cons_False by done. by apply IH.
Qed.

(** A selection of rows of a coerced frame is a coerced frame. *)
Lemma coerce_timestamps_selection `{Pandas} (df df' : DataFrame)
    (P : nat * list cell → Prop) `{!∀ r, Decision (P r)} :
  coerce_timestamps df = Ok df' →
  coerce_timestamps (mkDataFrame (columns df') (filter P (rows df')))
  = Ok (mkDataFrame (columns df') (filter P (rows df'))).
Proof.
  intros Hc. destruct (coerce_timestamps_datetime df df' Hc) as (p1 & p2 & Hp1 & Hp2 & H1 & H2).
  apply (coerce_timestamps_fixed _ p1 p2); cbn [rows]; try done;
    by apply Forall_map_filter.
Qed.

(** A view has no rows or a row with a date: the rows it keeps are rows
    whose [DATE] is in the range. *)
Lemma view_has_dates (df : DataFrame) (p : nat) (a b : Z) :
  column_position df "DATE" = Ok p →
  has_dates (mkDataFrame (columns df) (filter (λ r, row_in_range df a b r) (rows df))).
Proof.
  intros Hp. destruct (filter _ (rows df)) as [|r kept] eqn:Hkept; [by left|right].
  exists p, r. split; [by rewrite (column_position_columns df)|].
  cbn [rows]. split; [left|].
  assert (r ∈ filter (λ r, row_in_range df a b r) (rows df)) as Hr by (rewrite Hkept; left).
  apply list_elem_of_filter in Hr as [Hr _].
  rewrite (row_in_range_at df p) in Hr by done.
  by destruct (cell_at p r).
Qed.

(** The query on a view of a coerced frame is a second filter of its rows. *)
Lemma range_query_view `{Pandas} (df df' : DataFrame) (a b : Z) (start_date end_date : pydate) :
  coerce_timestamps df = Ok df' →
  range_query (mkDataFrame (columns df') (filter (λ r, row_in_range df' a b r) (rows df')))
    start_date end_date
  = Ok (mkDataFrame (columns df')
          (filter (λ r, row_in_range df' (as_date start_date) (as_date end_date) r
                        ∧ row_in_range df' a b r) (rows df'))).
Proof.
  intros Hc. destruct (coerce_timestamps_ok df df' Hc) as (_ & _ & p & Hp & _).
  rewrite (range_query_ok _ _ _ _ (coerce_timestamps_selection df df' _ Hc))
    by (by apply (view_has_dates df' p)).
  cbn [rows columns]. f_equal. f_equal. rewrite list_filter_filter.
  apply list_filter_iff. intros r. by rewrite (row_in_range_columns df').
Qed.

(** X6: the query is idempotent: the same range asked of the view returns
    the view. *)
Theorem range_query_idempotent `{Pandas} (df view : DataFrame) (start_date end_date : pydate) :
  range_query df start_date end_date = Ok view →
  range_query view start_date end_date = Ok view.
Proof.
  intros Hq. unfold range_query in Hq. apply bind_ok_inv in Hq as (df' & Hc & Hq).
  destruct (coerce_timestamps_ok df df' Hc) as (_ & _ & p & Hp & Hlike).
  pose proof (filter_range_dated df' view p _ _ Hp Hlike Hq) as Hdates.
  rewrite (filter_range_ok df' p) in Hq by done. injection Hq as <-.
  rewrite (range_query_view df df' _ _ start_date end_date Hc). do 2 f_equal.
  apply list_filter_iff. tauto.
Qed.

Lemma range_query_idempotent_witness :
  @range_query sample_pandas
    (mkDataFrame (columns dataset1) [reading 1 2 174 177; reading 2 3 176 175])
    (PyDate (january_2025 2)) (PyDate (january_2025 3))
  = Ok (mkDataFrame (columns dataset1) [reading 1 2 174 177; reading 2 3 176 175]).
Proof.
  apply (@range_query_idempotent sample_pandas dataset1).
  vm_compute. reflexivity.
Defined.

Lemma date_in_range_inter (a1 b1 a2 b2 : Z) (c : cell) :
  date_in_range a2 b2 c ∧ date_in_range a1 b1 c
  ↔ date_in_range (Z.max a1 a2) (Z.min b1 b2) c.
Proof.
  destruct c as [| | | |ns]; simpl; try tauto.
  rewrite !bool_decide_spec. lia.
Qed.

Lemma row_in_range_inter (df : DataFrame) (a1 b1 a2 b2 : Z) (r : nat * list cell) :
  row_in_range df a2 b2 r ∧ row_in_range df a1 b1 r
  ↔ row_in_range df (Z.max a1 a2) (Z.min b1 b2) r.
Proof.
  unfold row_in_range. destruct (column_position df "DATE"); [|simpl; tauto].
  apply date_in_range_inter.
Qed.

(** The view of a query, named. *)
Lemma range_query_inv `{Pandas} (df view : DataFrame) (start_date end_date : pydate) :
  range_query df start_date end_date = Ok view →
  ∃ df', coerce_timestamps df = Ok df' ∧ has_dates df' ∧
         view = mkDataFrame (columns df')
                  (filter (λ r, row_in_range df' (as_date start_date) (as_date end_date) r)
                          (rows df')).
Proof.
  intros Hq. pose proof Hq as Hq'. unfold range_query in Hq'.
  apply bind_ok_inv in Hq' as (df' & Hc & Hf). exists df'. split; [done|].
  destruct (coerce_timestamps_ok df df' Hc) as (_ & _ & p & Hp & Hlike).
  pose proof (filter_range_dated df' view p _ _ Hp Hlike Hf) as Hdates.
  split; [done|].
  rewrite (range_query_ok df df' start_date end_date Hc Hdates) in Hq. by injection Hq.
Qed.

(** X7: a second range asked of a view is the intersection of the two
    ranges asked of the source. *)
Theorem range_query_compose `{Pandas} (df view : DataFrame)
    (start1 end1 start2 end2 : pydate) :
  range_query df start1 end1 = Ok view →
  range_query view start2 end2
  = range_query df (PyDate (Z.max (as_date start1) (as_date start2)))
                   (PyDate (Z.min (as_date end1) (as_date end2))).
Proof.
  intros (df' & Hc & Hdates & ->)%range_query_inv.
  rewrite (range_query_view df df' _ _ start2 end2 Hc).
  rewrite (range_query_ok df df' _ _ Hc Hdates). cbn [as_date]. do 2 f_equal.
  apply list_filter_iff. intros r. apply row_in_range_inter.
Qed.

Lemma range_query_compose_witness :
  @range_query sample_pandas
    (mkDataFrame (columns dataset1)
       [reading 0 1 175 176; reading 1 2 174 177; reading 2 3 176 175])
    (PyDate (january_2025 2)) (PyDate (january_2025 5))
  = @range_query sample_pandas dataset1
      (PyDate (Z.max (january_2025 1) (january_2025 2)))
      (PyDate (Z.min (january_2025 3) (january_2025 5))).
Proof.
  apply (@range_query_compose sample_pandas dataset1
           (mkDataFrame (columns dataset1)
              [reading 0 1 175 176; reading 1 2 174 177; reading 2 3 176 175])
           (PyDate (january_2025 1)) (PyDate (january_2025 3))
           (PyDate (january_2025 2)) (PyDate (january_2025 5))).
  vm_compute. reflexivity.
Defined.

(** X8: a narrower range gives a view whose rows are a subsequence of the
    rows of the wider view, and it is the same view whether asked of the
    source or of the wider view. *)
Theorem range_query_narrow `{Pandas} (df wide : DataFrame)
    (start1 end1 start2 end2 : pydate) :
  as_date start1 ≤ as_date start2 → as_date end2 ≤ as_date end1 →
  range_query df start1 end1 = Ok wide →
  ∃ narrow,
    range_query df start2 end2 = Ok narrow ∧
    range_query wide start2 end2 = Ok narrow ∧
    rows narrow `sublist_of` rows wide.
Proof.
  intros Hs He (df' & Hc & Hdates & ->)%range_query_inv.
  eexists. split; [by apply range_query_ok|].
  assert (filter (λ r, row_in_range df' (as_date start2) (as_date end2) r
                       ∧ row_in_range df' (as_date start1) (as_date end1) r) (rows df')
          = filter (λ r, row_in_range df' (as_date start2) (as_date end2) r) (rows df'))
    as Hsame.
  { apply list_filter_iff. intros r. rewrite row_in_range_inter.
    by rewrite Z.max_r, Z.min_r by lia. }
  split.
  - by rewrite (range_query_view df df' _ _ start2 end2 Hc), Hsame.
  - cbn [rows]. rewrite <- Hsame, <- list_filter_filter. apply sublist_filter.
Qed.

Lemma range_query_narrow_witness :
  ∃ narrow,
    @range_query sample_pandas dataset1 (PyDate (january_2025 2)) (PyDate (january_2025 2))
      = Ok narrow ∧
    @range_query sample_pandas
      (mkDataFrame (columns dataset1)
         [reading 0 1 175 176; reading 1 2 174 177; reading 2 3 176 175])
      (PyDate (january_2025 2)) (PyDate (january_2025 2)) = Ok narrow ∧
    rows narrow `sublist_of`
      [reading 0 1 175 176; reading 1 2 174 177; reading 2 3 176 175].
Proof.
  apply (@range_query_narrow sample_pandas dataset1
           (mkDataFrame (columns dataset1)
              [reading 0 1 175 176; reading 1 2 174 177; reading 2 3 176 175])
           (PyDate (january_2025 1)) (PyDate (january_2025 3))
           (PyDate (january_2025 2)) (PyDate (january_2025 2))).
  - vm_compute. discriminate.
  - vm_compute. discriminate.
  - vm_compute. reflexivity.
Defined.

(** X9: the view has the schema of the source, and each of its rows is a
    source row with the same label and the same cell in every column other
    than [DATETIME] and [DATE]: measurements and control limits pass through
    untouched. *)
Theorem view_rows_pass_through `{Pandas} (df view : DataFrame) (start_date end_date : pydate)
    (r' : nat * list cell) :
  range_query df start_date end_date = Ok view → r' ∈ rows view →
  columns view = columns df ∧
  ∃ r, r ∈ rows df ∧ r'.1 = r.1 ∧ length r'.2 = length r.2 ∧
       ∀ col q, col ≠ "DATETIME" → col ≠ "DATE" →
                column_position df col = Ok q → cell_at q r' = cell_at q r.
Proof.
  intros (df' & Hc & _ & ->)%range_query_inv Hr'. cbn [rows columns] in *.
  destruct (coerce_timestamps_ok df df' Hc) as (Hcols & _ & _).
  destruct (coerce_timestamps_rows df df' Hc) as (p1 & p2 & Hp1 & Hp2 & Hrows).
  split; [done|].
  apply list_elem_of_filter in Hr' as [_ Hr'].
  apply list_elem_of_lookup in Hr' as [i Hi].
  destruct (Forall2_lookup_r _ _ _ _ _ Hrows Hi) as (r & Hr & Hl & Hlen & _ & _ & Hother).
  exists r. split; [by eapply list_elem_of_lookup_2|]. split; [done|]. split; [done|].
  intros col q Hc1 Hc2 Hq. unfold cell_at. rewrite Hother; [done| |].
  - intros ->. by apply (column_positions_differ df col "DATETIME" p1 p1).
  - intros ->. by apply (column_positions_differ df col "DATE" p2 p2).
Qed.

Lemma view_rows_pass_through_witness :
  columns (mkDataFrame (columns dataset1) [reading 1 2 174 177; reading 2 3 176 175])
    = columns dataset1 ∧
  ∃ r, r ∈ rows dataset1 ∧ (reading 2 3 176 175).1 = r.1 ∧
       length (reading 2 3 176 175).2 = length r.2 ∧
       ∀ col q, col ≠ "DATETIME" → col ≠ "DATE" →
                column_position dataset1 col = Ok q →
                cell_at q (reading 2 3 176 175) = cell_at q r.
Proof.
  apply (@view_rows_pass_through sample_pandas dataset1
           (mkDataFrame (columns dataset1) [reading 1 2 174 177; reading 2 3 176 175])
           (PyDate (january_2025 2)) (PyDate (january_2025 3))).
  - vm_compute. reflexivity.
  - right. left.
Defined.

Lemma column_position_missing (df : DataFrame) (col : string) :
  col ∉ columns df → column_position df col = Raise (KeyError col).
Proof.
  intros Hcol. unfold column_position.
  destruct (list_find _ _) as [[p c]|] eqn:Hfind; [|done].
  apply list_find_Some in Hfind as (Hp & -> & _).
  exfalso. apply Hcol. by eapply list_elem_of_lookup_2.
Qed.

(** X10: a frame without a [DATETIME] column makes the query raise the
    KeyError of that name, whatever its [DATE] column holds; a frame whose
    [DATETIME] column converts but that has no [DATE] column makes it raise
    the KeyError of [DATE]. *)
Theorem missing_timestamp_column `{Pandas} (df : DataFrame) (start_date end_date : pydate) :
  ("DATETIME" ∉ columns df →
     range_query df start_date end_date = Raise (KeyError "DATETIME"))
  ∧ (∀ s s', getitem df "DATETIME" = Ok s → to_datetime s = Ok s' →
             "DATE" ∉ columns df →
             range_query df start_date end_date = Raise (KeyError "DATE")).
Proof.
  split.
  - intros Hmiss. unfold range_query, coerce_timestamps, getitem.
    by rewrite column_position_missing.
  - intros s s' Hs Hs' Hmiss. unfold range_query, coerce_timestamps.
    rewrite Hs. cbn [mbind result_bind]. rewrite Hs'. cbn [mbind result_bind].
    pose proof (getitem_length _ _ _ Hs) as Hlen.
    apply getitem_ok in Hs as (p1 & Hp1 & _).
    apply to_datetime_ok in Hs' as [Hlen' _].
    rewrite (setitem_existing df "DATETIME" s' p1) by (done || lia).
    cbn [mbind result_bind]. unfold getitem.
    rewrite (column_position_columns df) by done.
    by rewrite column_position_missing.
Qed.

Lemma missing_timestamp_column_witness :
  @range_query sample_pandas (frame_of ["DATE"; "OvenA"])
    (PyDate (january_2025 1)) (PyDate (january_2025 2)) = Raise (KeyError "DATETIME")
  ∧ @range_query sample_pandas (frame_of ["DATETIME"; "OvenA"])
      (PyDate (january_2025 1)) (PyDate (january_2025 2)) = Raise (KeyError "DATE").
Proof.
  split.
  - apply (@missing_timestamp_column sample_pandas (frame_of ["DATE"; "OvenA"])).
    compute_done.
  - apply (proj2 (@missing_timestamp_column sample_pandas (frame_of ["DATETIME"; "OvenA"])
                    (PyDate (january_2025 1)) (PyDate (january_2025 2))) [] []).
    + reflexivity.
    + reflexivity.
    + compute_done.
Defined.

(** ** The default range and the empty view *)

Lemma foldr_min_le (t : Z) (ts : list Z) (x : Z) : x ∈ t :: ts → foldr Z.min t ts ≤ x.
Proof.
  induction ts as [|y ts IH]; cbn [foldr].
  - intros ->%list_elem_of_singleton. lia.
  - intros Hx. assert (x = y ∨ x ∈ t :: ts) as [->|Hin];
      [apply elem_of_cons in Hx as [->|[->|Hx]%elem_of_cons];
         [right; left|by left|right; by right]|lia|].
    specialize (IH Hin). lia.
Qed.

Lemma foldr_max_ge (t : Z) (ts : list Z) (x : Z) : x ∈ t :: ts → x ≤ foldr Z.max t ts.
Proof.
  induction ts as [|y ts IH]; cbn [foldr].
  - intros ->%list_elem_of_singleton. lia.
  - intros Hx. assert (x = y ∨ x ∈ t :: ts) as [->|Hin];
      [apply elem_of_cons in Hx as [->|[->|Hx]%elem_of_cons];
         [right; left|by left|right; by right]|lia|].
    specialize (IH Hin). lia.
Qed.

Lemma elem_of_timestamps (s : list cell) (ns : Z) : ns ∈ timestamps s ↔ CTime ns ∈ s.
Proof.
  unfold timestamps. rewrite list_elem_of_omap. split.
  - intros (c & Hc & Hns). destruct c; try discriminate. by injection Hns as ->.
  - intros Hin. by exists (CTime ns).
Qed.

Lemma series_min_le (s : list cell) (lo ns : Z) :
  series_min s = Some lo → CTime ns ∈ s → lo ≤ ns.
Proof.
  unfold series_min. intros Hlo Hin%elem_of_timestamps.
  destruct (timestamps s) as [|t ts]; [discriminate|]. injection Hlo as <-.
  by apply foldr_min_le.
Qed.

Lemma series_max_ge (s : list cell) (hi ns : Z) :
  series_max s = Some hi → CTime ns ∈ s → ns ≤ hi.
Proof.
  unfold series_max. intros Hhi Hin%elem_of_timestamps.
  destruct (timestamps s) as [|t ts]; [discriminate|]. injection Hhi as <-.
  by apply foldr_max_ge.
Qed.

Lemma series_min_max (s : list cell) (lo hi : Z) :
  series_min s = Some lo → series_max s = Some hi → lo ≤ hi.
Proof.
  intros Hlo Hhi. destruct (timestamps s) as [|t ts] eqn:Hts.
  - unfold series_min in Hlo. by rewrite Hts in Hlo.
  - assert (CTime t ∈ s) as Ht by (apply elem_of_timestamps; rewrite Hts; left).
    pose proof (series_min_le s lo t Hlo Ht). pose proof (series_max_ge s hi t Hhi Ht). lia.
Qed.

Lemma timestamp_date_mono (a b : Z) : a ≤ b → timestamp_date a ≤ timestamp_date b.
Proof. intros Hab. unfold timestamp_date. by apply Z.div_le_mono. Qed.

(** X11: with the picker left at its default, the span from the least to the
    greatest [DATE], the start is not after the end and the view has exactly
    the rows whose [DATE] is a timestamp: only rows without a date are left
    out. *)
Theorem default_range_keeps_dated_rows `{Pandas} (df df' : DataFrame)
    (start_date end_date : pydate) :
  coerce_timestamps df = Ok df' →
  default_range df' = Ok (start_date, end_date) →
  as_date start_date ≤ as_date end_date ∧
  ∃ view p,
    range_query df start_date end_date = Ok view ∧
    column_position df' "DATE" = Ok p ∧
    rows view = filter (λ r, is_timestamp (cell_at p r)) (rows df').
Proof.
  intros Hc Hdef.
  destruct (coerce_timestamps_ok df df' Hc) as (_ & _ & p & Hp & Hlike).
  unfold default_range, date_input, getitem in Hdef. rewrite Hp in Hdef.
  cbn [mbind result_bind mret result_ret] in Hdef.
  destruct (series_min _) as [lo|] eqn:Hlo; [|discriminate].
  destruct (series_max _) as [hi|] eqn:Hhi; [|discriminate].
  injection Hdef as <- <-. cbn [as_date]. split.
  - apply timestamp_date_mono. by eapply series_min_max.
  - assert (has_dates df') as Hdates.
    { apply (has_dates_at df' p Hp). right. unfold series_min in Hlo.
      destruct (timestamps _) as [|t ts] eqn:Hts; [discriminate|].
      exists (CTime t). split; [|done]. apply elem_of_timestamps. rewrite Hts. left. }
    eexists _, p. split; [by apply range_query_ok|]. split; [done|].
    cbn [rows as_date]. apply filter_ext_elem_of. intros r Hr.
    rewrite (row_in_range_at df' p) by done.
    destruct (cell_at p r) as [| | | |ns] eqn:Hcell; try done. simpl.
    assert (CTime ns ∈ map (cell_at p) (rows df')) as Hin.
    { rewrite <- Hcell. by apply list_elem_of_fmap_2. }
    split; [done|]. intros _. apply bool_decide_pack. split.
    + apply timestamp_date_mono. by eapply series_min_le.
    + apply timestamp_date_mono. by eapply series_max_ge.
Qed.

Lemma default_range_keeps_dated_rows_witness :
  january_2025 1 ≤ january_2025 5 ∧
  ∃ view p,
    @range_query sample_pandas dataset1 (PyDate (january_2025 1)) (PyDate (january_2025 5))
      = Ok view ∧
    column_position dataset1 "DATE" = Ok p ∧
    rows view = filter (λ r, is_timestamp (cell_at p r)) (rows dataset1).
Proof.
  apply (@default_range_keeps_dated_rows sample_pandas dataset1 dataset1
           (PyDate (january_2025 1)) (PyDate (january_2025 5))).
  - vm_compute. reflexivity.
  - vm_compute. reflexivity.
Defined.

Lemma filter_nil_none {A} (P : A → Prop) `{!∀ x, Decision (P x)} (l : list A) (x : A) :
  filter P l = [] → x ∈ l → ¬ P x.
Proof.
  intros Hnil Hx HP. assert (x ∈ filter P l) as Hin by (by apply list_elem_of_filter).
  rewrite Hnil in Hin. by apply elem_of_nil in Hin.
Qed.

(** X12: line 201 takes the warning branch exactly when no row of the
    coerced dataset is in the range: the view of a query is empty if and
    only if the date predicate fails on every row. *)
Theorem view_empty_iff_no_row_in_range `{Pandas} (df df' view : DataFrame)
    (start_date end_date : pydate) :
  coerce_timestamps df = Ok df' →
  range_query df start_date end_date = Ok view →
  df_empty view ↔
  ∀ r, r ∈ rows df' →
       row_in_range df' (as_date start_date) (as_date end_date) r = false.
Proof.
  intros Hc Hq. apply range_query_inv in Hq as (df'' & Hc' & _ & ->).
  assert (df'' = df') as -> by congruence.
  destruct (coerce_timestamps_ok df df' Hc) as (_ & _ & p & Hp & _).
  assert (columns df' ≠ []) as Hcols.
  { apply column_position_ok, list_find_Some in Hp as (Hp & _).
    intros Hnil. by rewrite Hnil in Hp. }
  unfold df_empty. cbn [rows columns]. split.
  - intros Hempty r Hr. apply Is_true_false_1.
    destruct (filter _ _) eqn:Hf.
    + by apply (filter_nil_none _ _ r Hf).
    + by destruct (columns df').
  - intros Hnone. rewrite filter_none; [done|].
    intros r Hr. apply Is_true_false_2. by apply Hnone.
Qed.

Lemma view_empty_iff_no_row_in_range_witness :
  df_empty (mkDataFrame (columns dataset1) []) ↔
  ∀ r, r ∈ rows dataset1 →
       row_in_range dataset1 (january_2025 4) (january_2025 2) r = false.
Proof.
  apply (@view_empty_iff_no_row_in_range sample_pandas dataset1 dataset1
           (mkDataFrame (columns dataset1) [])
           (PyDate (january_2025 4)) (PyDate (january_2025 2))).
  - vm_compute. reflexivity.
  - vm_compute. reflexivity.
Defined.

(** ** The script: the view object, the failures, the exports *)

Lemma keeps_ret_post {A} (σ0 : store) (a : A) (Q : A → Prop) :
  Q a → keeps σ0 (mret a) Q.
Proof. intros HQ σ Hσ. split; [done|]. by intros a' [= <-]. Qed.

Lemma keeps_df_select_fresh (σ0 : store) (l : nat) (mask : list bool) :
  keeps σ0 (df_select l mask) (λ l', σ0 !! l' = None).
Proof.
  unfold df_select. eapply keeps_bind; [apply keeps_deref|].
  intros df _. eapply keeps_bind; [apply keeps_lift|].
  intros df' _. apply keeps_alloc.
Qed.

(** X13: the view the script returns is a new object: its identity is that
    of no object that was in the store before the query, so it is no alias
    of a stored dataset. *)
Theorem view_is_new_object `{Pandas} (measurement_map : gmap string string)
    (datasets : list (string * nat)) (selected_measures : list string)
    (start_date end_date : pydate) (σ : store) (view : nat) (excel_data : worksheet)
    (csv_data : list Byte.byte) :
  (run_query measurement_map datasets selected_measures start_date end_date σ).1
    = Ok (Some (view, excel_data, csv_data)) →
  σ !! view = None.
Proof.
  intros Hrun.
  assert (keeps σ (run_query measurement_map datasets selected_measures start_date end_date)
            (λ res, ∀ v x c, res = Some (v, x, c) → σ !! v = None)) as Hkeeps.
  { unfold run_query. destruct selected_measures as [|first rest].
    { apply keeps_ret_post. intros v x c [=]. }
    eapply keeps_bind; [apply keeps_lift|]. intros dataset_name _.
    eapply keeps_bind; [apply keeps_lift|]. intros stored _.
    eapply keeps_bind; [apply keeps_df_copy|]. intros df Hdf.
    eapply keeps_bind; [apply keeps_df_getitem|]. intros s _.
    eapply keeps_bind; [apply keeps_lift|]. intros s' _.
    eapply keeps_bind; [by apply keeps_df_setitem|]. intros _ _.
    eapply keeps_bind; [apply keeps_df_getitem|]. intros d _.
    eapply keeps_bind; [apply keeps_lift|]. intros d' _.
    eapply keeps_bind; [by apply keeps_df_setitem|]. intros _ _.
    eapply keeps_bind; [apply keeps_df_getitem|]. intros bounds _.
    eapply keeps_bind; [apply keeps_lift|]. intros _ _.
    eapply keeps_bind; [apply keeps_df_getitem|]. intros d1 _.
    eapply keeps_bind; [apply keeps_lift|]. intros a _.
    eapply keeps_bind; [apply keeps_lift|]. intros after_start _.
    eapply keeps_bind; [apply keeps_df_getitem|]. intros d2 _.
    eapply keeps_bind; [apply keeps_lift|]. intros b _.
    eapply keeps_bind; [apply keeps_lift|]. intros before_end _.
    eapply keeps_bind; [apply keeps_df_select_fresh|]. intros v Hv.
    eapply keeps_bind; [apply keeps_chart|]. intros _ _.
    eapply keeps_bind; [apply keeps_export_excel|]. intros x _.
    eapply keeps_bind; [apply keeps_export_csv|]. intros c _.
    apply keeps_ret_post. by intros v' x' c' [= <- <- <-]. }
  destruct (Hkeeps σ) as [_ Hpost]; [done|]. by eapply Hpost.
Qed.

Lemma view_is_new_object_witness : sample_store !! 2%nat = None.
Proof.
  apply (@view_is_new_object sample_pandas (build_measurement_map [("dataset1", dataset1)])
           sample_datasets ["OvenA"] (PyDate (january_2025 2)) (PyDate (january_2025 3))
           sample_store 2%nat
           (to_excel (mkDataFrame (columns dataset1)
                        [reading 1 2 174 177; reading 2 3 176 175]))
           (encode_utf8 (@to_csv sample_pandas
                           (mkDataFrame (columns dataset1)
                              [reading 1 2 174 177; reading 2 3 176 175])))).
  vm_compute. reflexivity.
Defined.

(** The picker raises exactly when the column has no timestamp. *)
Lemma date_input_undated (s : list cell) :
  (∀ c, c ∈ s → ¬ is_timestamp c) → date_input s = Raise ValueError.
Proof.
  intros Hno. unfold date_input, series_min.
  destruct (timestamps s) as [|t ts] eqn:Hts; [done|].
  assert (CTime t ∈ s) as Ht by (apply elem_of_timestamps; rewrite Hts; left).
  by destruct (Hno _ Ht).
Qed.


Lemma default_range_undated (df : DataFrame) (p : nat) :
  column_position df "DATE" = Ok p →
  (∀ r, r ∈ rows df → ¬ is_timestamp (cell_at p r)) →
  default_range df = Raise ValueError.
Proof.
  intros Hp Hno. unfold default_range, getitem. rewrite Hp.
  cbn [mbind result_bind mret result_ret]. apply date_input_undated.
  intros c (r & -> & Hr)%list_elem_of_fmap. by apply Hno.
Qed.






(** ** The text: records and lines *)

Lemma escape_no_line_feed (s : list ascii) :
  Forall (λ c, c ≠ LF) s → Forall (λ c, c ≠ LF) (escape s).
Proof.
  induction 1 as [|c s Hc _ IH]; [constructor|]. cbn [escape].
  destruct (decide (c = quotechar)); repeat constructor; done.
Qed.

Lemma write_field_no_line_feed `{Pandas} (f : string) :
  Forall (λ c, c ≠ LF) (list_ascii_of_string f) →
  Forall (λ c, c ≠ LF) (write_field f).
Proof.
  intros Hf. unfold write_field. cbn zeta. destruct (existsb _ _); [|done].
  constructor; [done|]. apply Forall_app. split; [by apply escape_no_line_feed|].
  by repeat constructor.
Qed.

Lemma join_fields_no_line_feed (fs : list (list ascii)) :
  Forall (Forall (λ c, c ≠ LF)) fs → Forall (λ c, c ≠ LF) (join_fields fs).
Proof.
  induction 1 as [|f fs Hf Hfs IH]; [constructor|].
  destruct fs as [|f' fs]; [done|]. rewrite join_fields_cons.
  apply Forall_app. split; [done|]. by constructor.
Qed.

Lemma filter_none_Forall {A} (P : A → Prop) `{!∀ x, Decision (P x)} (l : list A) :
  Forall (λ x, ¬ P x) l → filter P l = [].
Proof. intros Hl. apply filter_none. by apply Forall_forall. Qed.

(** A record without a line feed in its fields is written on one line. *)
Lemma write_row_one_line `{Pandas} (fs : list string) :
  Forall (λ f, Forall (λ c, c ≠ LF) (list_ascii_of_string f)) fs →
  length (filter (λ c, c = LF) (write_row fs)) = 1%nat.
Proof.
  intros Hfs. unfold write_row. rewrite filter_app, length_app.
  assert (length (filter (λ c, c = LF) lineterminator) = 1%nat) as ->.
  { unfold lineterminator. by destruct windows. }
  rewrite filter_none_Forall; [done|].
  assert (Forall (λ c, c ≠ LF) (join_fields (map write_field fs))) as Hjoin.
  { apply join_fields_no_line_feed. apply Forall_fmap.
    eapply Forall_impl; [exact Hfs|]. intros f Hf. by apply write_field_no_line_feed. }
  destruct fs as [|[|c f] [|f' fs]]; try done. by repeat constructor.
Qed.

(** X16: when no column name and no cell text holds a line feed, the text
    has one line per record: the header and one line for each row. *)
Theorem to_csv_line_count `{Pandas} (df : DataFrame) :
  Forall (Forall (λ f, Forall (λ c, c ≠ LF) (list_ascii_of_string f))) (text_rows df) →
  length (filter (λ c, c = LF) (list_ascii_of_string (to_csv df)))
  = S (length (rows df)).
Proof.
  unfold to_csv. rewrite list_ascii_of_string_of_list_ascii.
  assert (length (text_rows df) = S (length (rows df))) as <-.
  { unfold text_rows. cbn [length]. by rewrite length_map. }
  induction 1 as [|fs rs Hfs _ IH]; [done|].
  cbn [map concat length]. rewrite filter_app, length_app, IH.
  by rewrite write_row_one_line.
Qed.

Lemma to_csv_line_count_witness :
  length (filter (λ c, c = LF) (list_ascii_of_string (@to_csv sample_pandas dataset1)))
  = S (length (rows dataset1)).
Proof.
  apply (@to_csv_line_count sample_pandas dataset1).
  compute_done.
Defined.

(** X17: the text of a well-formed frame, when no column name and no cell
    text holds a carriage return or the line terminator is CR LF, decodes
    to records that all have one field per column, the header first and
    then one record per row: no index column is written. *)
Theorem to_csv_rectangular `{Pandas} (df : DataFrame) :
  well_formed df →
  (windows = false →
   Forall (Forall (λ f, Forall (λ c, c ≠ CR) (list_ascii_of_string f))) (text_rows df)) →
  length (decode_csv (encode_utf8 (to_csv df))) = S (length (rows df)) ∧
  Forall (λ record : list string, length record = length (columns df))
    (decode_csv (encode_utf8 (to_csv df))).
Proof.
  intros Hwf Hcr. rewrite csv_round_trip_rows.
  2:{ apply Forall_forall. intros fs Hfs. apply Forall_forall. intros f Hf Hw Hin.
      specialize (Hcr Hw). rewrite Forall_forall in Hcr. specialize (Hcr fs Hfs).
      rewrite Forall_forall in Hcr. specialize (Hcr f Hf).
      rewrite Forall_forall in Hcr. by apply (Hcr CR). }
  unfold text_rows. split.
  - cbn [length]. by rewrite length_map.
  - constructor; [done|]. apply Forall_fmap.
    eapply Forall_impl; [exact Hwf|]. intros r Hr. cbn [compose].
    by rewrite length_imap.
Qed.

Lemma to_csv_rectangular_witness :
  length (decode_csv (encode_utf8 (@to_csv sample_pandas dataset1)))
    = S (length (rows dataset1)) ∧
  Forall (λ record : list string, length record = length (columns dataset1))
    (decode_csv (encode_utf8 (@to_csv sample_pandas dataset1))).
Proof.
  apply (@to_csv_rectangular sample_pandas dataset1).
  - repeat constructor.
  - intros _. compute_done.
Defined.

(** ** Base64 of a file *)

Lemma list_ind3 {A} (P : list A → Prop) :
  P [] → (∀ a, P [a]) → (∀ a b, P [a; b]) →
  (∀ a b c l, P l → P (a :: b :: c :: l)) →
  ∀ l, P l.
Proof.
  intros H0 H1 H2 H3 l.
  assert (P l ∧ (∀ a, P (a :: l)) ∧ (∀ a b, P (a :: b :: l))) as [Hl _]; [|done].
  induction l as [|x l (IH0 & IH1 & IH2)]; [by auto|].
  split; [done|]. split; [done|]. intros a b. by apply H3.
Qed.

Lemma byte_value_bounds (b : Byte.byte) : 0 ≤ byte_value b < 256.
Proof. unfold byte_value. pose proof (Byte.to_N_bounded b). lia. Qed.

Lemma byte_of_byte_value (b : Byte.byte) : byte_of_value (byte_value b) = Some b.
Proof. unfold byte_of_value, byte_value. rewrite N2Z.id. apply Byte.of_to_N. Qed.

(** The sixty-four characters, checked one by one. *)
Lemma b64_char_table :
  Forall (λ n : nat,
            b64_value (b64_char (Z.of_nat n)) = Some (Z.of_nat n) ∧
            b64_char (Z.of_nat n) ≠ b64_pad ∧
            b64_char (Z.of_nat n) ≠ quotechar ∧
            b64_char (Z.of_nat n) ∈ b64_alphabet)
    (seq 0 64).
Proof. compute_done. Qed.

Lemma b64_char_spec (v : Z) :
  0 ≤ v < 64 →
  b64_value (b64_char v) = Some v ∧ b64_char v ≠ b64_pad ∧
  b64_char v ≠ quotechar ∧ b64_char v ∈ b64_alphabet.
Proof.
  intros Hv. pose proof b64_char_table as Htable.
  rewrite Forall_forall in Htable. specialize (Htable (Z.to_nat v)).
  rewrite Z2Nat.id in Htable by lia. apply Htable.
  apply elem_of_seq. lia.
Qed.

Lemma sextets_in_range (x y z : Z) :
  0 ≤ x < 256 → 0 ≤ y < 256 → 0 ≤ z < 256 →
  0 ≤ x `div` 4 < 64 ∧ 0 ≤ x `mod` 4 * 16 + y `div` 16 < 64 ∧
  0 ≤ y `mod` 16 * 4 + z `div` 64 < 64 ∧ 0 ≤ z `mod` 64 < 64 ∧
  0 ≤ x `mod` 4 * 16 < 64 ∧ 0 ≤ y `mod` 16 * 4 < 64.
Proof. intros Hx Hy Hz. Z.to_euclidean_division_equations. lia. Qed.

Lemma sextets_back (x y z : Z) :
  0 ≤ x < 256 → 0 ≤ y < 256 → 0 ≤ z < 256 →
  x `div` 4 * 4 + (x `mod` 4 * 16 + y `div` 16) `div` 16 = x ∧
  (x `mod` 4 * 16 + y `div` 16) `mod` 16 * 16 + (y `mod` 16 * 4 + z `div` 64) `div` 4 = y ∧
  (y `mod` 16 * 4 + z `div` 64) `mod` 4 * 64 + z `mod` 64 = z.
Proof. intros Hx Hy Hz. Z.to_euclidean_division_equations. lia. Qed.

Lemma b64_bytes_chars (data : list Byte.byte) : b64_bytes (b64_chars data) = Some data.
Proof.
  induction data as [|a|a b|a b c rest IH] using list_ind3; [done| | |].
  - cbn [b64_chars]. cbn zeta. pose proof (byte_value_bounds a) as Ha.
    set (x := byte_value a) in *.
    assert (byte_of_value x = Some a) as Hbx by apply byte_of_byte_value.
    destruct (sextets_in_range x 0 0) as (H1 & _ & _ & _ & H2 & _); [lia..|].
    cbn [b64_bytes].
    rewrite (proj1 (b64_char_spec _ H1)), (proj1 (b64_char_spec _ H2)).
    cbn [mbind option_bind].
    replace (x `div` 4 * 4 + (x `mod` 4 * 16) `div` 16) with x
      by (Z.to_euclidean_division_equations; lia).
    rewrite Hbx. cbn [mbind option_bind].
    by rewrite !decide_True.
  - cbn [b64_chars]. cbn zeta.
    pose proof (byte_value_bounds a) as Ha. pose proof (byte_value_bounds b) as Hb.
    set (x := byte_value a) in *. set (y := byte_value b) in *.
    assert (byte_of_value x = Some a) as Hbx by apply byte_of_byte_value.
    assert (byte_of_value y = Some b) as Hby by apply byte_of_byte_value.
    destruct (sextets_in_range x y 0) as (H1 & H2 & _ & _ & _ & H3); [lia..|].
    cbn [b64_bytes].
    rewrite (proj1 (b64_char_spec _ H1)), (proj1 (b64_char_spec _ H2)).
    cbn [mbind option_bind].
    replace (x `div` 4 * 4 + (x `mod` 4 * 16 + y `div` 16) `div` 16) with x
      by (Z.to_euclidean_division_equations; lia).
    rewrite Hbx. cbn [mbind option_bind].
    rewrite decide_True by done.
    rewrite decide_False by apply (b64_char_spec _ H3).
    rewrite (proj1 (b64_char_spec _ H3)). cbn [mbind option_bind].
    replace ((x `mod` 4 * 16 + y `div` 16) `mod` 16 * 16 + (y `mod` 16 * 4) `div` 4) with y
      by (Z.to_euclidean_division_equations; lia).
    by rewrite Hby.
  - cbn [b64_chars]. cbn zeta.
    pose proof (byte_value_bounds a) as Ha. pose proof (byte_value_bounds b) as Hb.
    pose proof (byte_value_bounds c) as Hc.
    set (x := byte_value a) in *. set (y := byte_value b) in *.
    set (z := byte_value c) in *.
    assert (byte_of_value x = Some a) as Hbx by apply byte_of_byte_value.
    assert (byte_of_value y = Some b) as Hby by apply byte_of_byte_value.
    assert (byte_of_value z = Some c) as Hbz by apply byte_of_byte_value.
    destruct (sextets_in_range x y z) as (H1 & H2 & H3 & H4 & _); [lia..|].
    destruct (sextets_back x y z) as (Hx & Hy & Hz); [lia..|].
    cbn [b64_bytes].
    rewrite (proj1 (b64_char_spec _ H1)), (proj1 (b64_char_spec _ H2)).
    cbn [mbind option_bind]. rewrite Hx, Hbx.
    cbn [mbind option_bind].
    rewrite decide_False by apply (b64_char_spec _ H4).
    rewrite (proj1 (b64_char_spec _ H3)), (proj1 (b64_char_spec _ H4)).
    cbn [mbind option_bind]. rewrite Hy, Hz, Hby. cbn [mbind option_bind].
    rewrite Hbz. cbn [mbind option_bind]. by rewrite IH.
Qed.

(** X18: for a file that exists, the function returns a text that decodes
    back to the bytes of the file; for a path that is no file it returns
    nothing. *)
Theorem get_base64_of_bin_file_round_trip (files : gmap string (list Byte.byte))
    (bin_file : string) :
  match files !! bin_file with
  | Some data =>
      ∃ text, get_base64_of_bin_file files bin_file = Some text ∧
              b64decode text = Some data
  | None => get_base64_of_bin_file files bin_file = None
  end.
Proof.
  unfold get_base64_of_bin_file. destruct (files !! bin_file) as [data|]; [|done].
  eexists. split; [done|]. unfold b64decode, b64encode.
  rewrite list_ascii_of_string_of_list_ascii. apply b64_bytes_chars.
Qed.

Lemma length_b64_chars (data : list Byte.byte) :
  length (b64_chars data) = (4 * ((length data + 2) `div` 3))%nat.
Proof.
  induction data as [|a|a b|a b c rest IH] using list_ind3; [done..|].
  cbn [b64_chars length]. cbn zeta. cbn [length]. rewrite IH.
  replace (S (S (S (length rest))) + 2)%nat with (length rest + 2 + 1 * 3)%nat by lia.
  rewrite Nat.div_add by done. lia.
Qed.

Lemma length_string_of_list_ascii (l : list ascii) :
  String.length (string_of_list_ascii l) = length l.
Proof. induction l as [|c l IH]; [done|]. cbn. by rewrite IH. Qed.

(** X19: the encoded text has four characters for every group of three
    bytes, the last group counted when incomplete. *)
Theorem b64encode_length (data : list Byte.byte) :
  String.length (b64encode data) = (4 * ((length data + 2) `div` 3))%nat.
Proof. unfold b64encode. by rewrite length_string_of_list_ascii, length_b64_chars. Qed.

Lemma b64_chars_alphabet (data : list Byte.byte) :
  Forall (λ c, (c ∈ b64_alphabet ∨ c = b64_pad) ∧ c ≠ quotechar) (b64_chars data).
Proof.
  assert (∀ v, 0 ≤ v < 64 →
            (b64_char v ∈ b64_alphabet ∨ b64_char v = b64_pad) ∧ b64_char v ≠ quotechar)
    as Hchar.
  { intros v Hv. destruct (b64_char_spec v Hv) as (_ & _ & ? & ?). by split; [left|]. }
  assert ((b64_pad ∈ b64_alphabet ∨ b64_pad = b64_pad) ∧ b64_pad ≠ quotechar) as Hpad
    by (by split; [right|]).
  induction data as [|a|a b|a b c rest IH] using list_ind3; [constructor| | |].
  - pose proof (byte_value_bounds a) as Ha.
    destruct (sextets_in_range (byte_value a) 0 0) as (H1 & _ & _ & _ & H2 & _); [lia..|].
    cbn [b64_chars]. cbn zeta. repeat (constructor; [by auto|]). constructor.
  - pose proof (byte_value_bounds a) as Ha. pose proof (byte_value_bounds b) as Hb.
    destruct (sextets_in_range (byte_value a) (byte_value b) 0)
      as (H1 & H2 & _ & _ & _ & H3); [lia..|].
    cbn [b64_chars]. cbn zeta. repeat (constructor; [by auto|]). constructor.
  - pose proof (byte_value_bounds a) as Ha. pose proof (byte_value_bounds b) as Hb.
    pose proof (byte_value_bounds c) as Hc.
    destruct (sextets_in_range (byte_value a) (byte_value b) (byte_value c))
      as (H1 & H2 & H3 & H4 & _); [lia..|].
    cbn [b64_chars]. cbn zeta. repeat (constructor; [by auto|]). done.
Qed.

(** X20: every character of the encoded text is a letter, a digit, [+], [/]
    or the padding [=]; none is a double quote, so the text cannot end the
    [src="..."] attribute it is placed in (line 72). *)
Theorem b64encode_alphabet (data : list Byte.byte) :
  Forall (λ c, (c ∈ b64_alphabet ∨ c = b64_pad) ∧ c ≠ quotechar)
    (list_ascii_of_string (b64encode data)).
Proof.
  unfold b64encode. rewrite list_ascii_of_string_of_list_ascii. apply b64_chars_alphabet.
Qed.

(** ** From the selector to the frame, and the coerced columns *)

(** X21: with distinct dataset names, every option the selector offers
    resolves: the index maps it to a dataset name, [datasets] has a frame
    under that name, and the option is a column of that frame.  Lines
    175-176 raise no KeyError for a selection made of options. *)
Theorem every_option_resolves (datasets : list (string * DataFrame)) (option : string) :
  NoDup (map fst datasets) → option ∈ options datasets →
  ∃ dataset_name df,
    map_get (build_measurement_map datasets) option = Ok dataset_name ∧
    dict_get datasets dataset_name = Ok df ∧
    option ∈ columns df.
Proof.
  intros Hnd Hopt. unfold options in Hopt.
  apply list_elem_of_fmap in Hopt as ([k v] & -> & Hin). cbn [fst].
  destruct (dict_get_elem_of _ _ _ Hin) as [name Hname].
  rewrite ordered_get_agrees in Hname. exists name.
  pose proof Hname as Hm. unfold map_get, build_measurement_map in Hm.
  destruct (index_datasets datasets ∅ !! k) as [name'|] eqn:Hk; [|discriminate].
  injection Hm as ->.
  apply index_datasets_values in Hk as [Hk|(df & Hdf & HC & _)].
  - by rewrite lookup_empty in Hk.
  - exists df. split; [done|]. split; [by apply dict_get_unique|done].
Qed.

Lemma every_option_resolves_witness :
  ∃ dataset_name df,
    map_get (build_measurement_map three_datasets) "OvenB" = Ok dataset_name ∧
    dict_get three_datasets dataset_name = Ok df ∧
    "OvenB" ∈ columns df.
Proof.
  apply (every_option_resolves three_datasets "OvenB").
  - compute_done.
  - compute_done.
Defined.

Lemma to_datetime_of_each `{Pandas} (column s s' : list cell) :
  Forall2 (λ c c', to_datetime_cell column c = Ok c') s s' →
  to_datetime_cells column s = Ok s'.
Proof.
  induction 1 as [|c c' s s' Hc _ IH]; [done|]. cbn [to_datetime_cells]. by rewrite Hc, IH.
Qed.

(** X22: after lines 177-178 the [DATETIME] column of the copy is the
    conversion of the [DATETIME] column of the source, and likewise for
    [DATE]: reading a coerced column back gives what [pd.to_datetime]
    returned for it. *)
Theorem coerced_columns_are_conversions `{Pandas} (df df' : DataFrame) (col : string)
    (s : list cell) :
  coerce_timestamps df = Ok df' →
  col = "DATETIME" ∨ col = "DATE" →
  getitem df col = Ok s →
  ∃ s', to_datetime s = Ok s' ∧ getitem df' col = Ok s'.
Proof.
  intros Hc Hcol Hs.
  destruct (coerce_timestamps_ok df df' Hc) as (Hcols & _).
  destruct (coerce_timestamps_rows df df' Hc) as (p1 & p2 & Hp1 & Hp2 & Hrows).
  apply getitem_ok in Hs as (p & Hp & ->).
  exists (map (cell_at p) (rows df')). split.
  - unfold to_datetime. apply to_datetime_of_each. apply Forall2_fmap.
    eapply Forall2_impl; [exact Hrows|]. intros r r' (_ & _ & H1 & H2 & _). cbn [compose].
    destruct Hcol as [-> | ->].
    + by assert (p = p1) as -> by congruence.
    + by assert (p = p2) as -> by congruence.
  - apply getitem_ok. exists p. split; [|done].
    by rewrite (column_position_columns df df').
Qed.

Lemma coerced_columns_are_conversions_witness :
  ∃ s', @to_datetime sample_pandas [CStr EmptyString; CNum (inject_Z 86400000000000)] = Ok s' ∧
        getitem (mkDataFrame ["DATETIME"; "DATE"]
                   [(0%nat, [CNull; CNull]); (1%nat, [CTime 0; CTime 86400000000000])])
          "DATE" = Ok s'.
Proof.
  apply (@coerced_columns_are_conversions sample_pandas
           (mkDataFrame ["DATETIME"; "DATE"]
              [(0%nat, [CNull; CStr EmptyString]);
               (1%nat, [CTime 0; CNum (inject_Z 86400000000000)])])
           (mkDataFrame ["DATETIME"; "DATE"]
              [(0%nat, [CNull; CNull]); (1%nat, [CTime 0; CTime 86400000000000])])
           "DATE").
  - vm_compute. reflexivity.
  - right. reflexivity.
  - vm_compute. reflexivity.
Defined.

(** X25: a [datetime] given as a bound counts as its calendar day, whatever
    its time of day (lines 189-192). *)
Theorem datetime_bound_is_its_day `{Pandas} (df : DataFrame) (day time : Z) (other : pydate) :
  0 ≤ time < us_per_day →
  range_query df (PyDateTime (day * us_per_day + time)) other
    = range_query df (PyDate day) other
  ∧ range_query df other (PyDateTime (day * us_per_day + time))
    = range_query df other (PyDate day).
Proof.
  intros Htime.
  assert (as_date (PyDateTime (day * us_per_day + time)) = day) as Hday.
  { cbn [as_date]. symmetry. apply (Z.div_unique_pos _ _ day time); [done|lia]. }
  unfold range_query. by rewrite Hday.
Qed.

Lemma datetime_bound_is_its_day_witness :
  @range_query sample_pandas dataset1
    (PyDateTime (january_2025 2 * us_per_day + 3600000000)) (PyDate (january_2025 3))
    = @range_query sample_pandas dataset1 (PyDate (january_2025 2)) (PyDate (january_2025 3))
  ∧ @range_query sample_pandas dataset1 (PyDate (january_2025 3))
      (PyDateTime (january_2025 2 * us_per_day + 3600000000))
    = @range_query sample_pandas dataset1 (PyDate (january_2025 3)) (PyDate (january_2025 2)).
Proof.
  apply (@datetime_bound_is_its_day sample_pandas dataset1 (january_2025 2) 3600000000
           (PyDate (january_2025 3))).
  unfold us_per_day. lia.
Defined.

Lemma range_query_well_formed_witness :
  well_formed (mkDataFrame (columns dataset1) [reading 1 2 174 177; reading 2 3 176 175]).
Proof.
  apply (@range_query_well_formed sample_pandas dataset1 _
           (PyDate (january_2025 2)) (PyDate (january_2025 3))).
  - repeat constructor.
  - vm_compute. reflexivity.
Defined.





(** X26: a dataset that coerces and has rows, none of them with a date,
    cannot be queried: the comparison of line 199 raises TypeError, and in
    the script the date picker of lines 183-187, which comes first, raises
    ValueError. *)
Theorem undated_frame_raises `{Pandas} (measurement_map : gmap string string)
    (datasets : list (string * nat)) (first : string) (rest : list string)
    (start_date end_date : pydate) (σ : store) (dataset_name : string) (l p : nat)
    (df df' : DataFrame) :
  map_get measurement_map first = Ok dataset_name →
  dict_get datasets dataset_name = Ok l →
  σ !! l = Some df →
  coerce_timestamps df = Ok df' →
  column_position df' "DATE" = Ok p →
  rows df' ≠ [] → (∀ r, r ∈ rows df' → ¬ is_timestamp (cell_at p r)) →
  range_query df start_date end_date = Raise TypeError ∧
  (run_query measurement_map datasets (first :: rest) start_date end_date σ).1
  = Raise ValueError.
Proof.
  intros Hname Hl Hdf Hc Hp Hrows Hno. split.
  - apply (range_query_raises df df'); [done|].
    intros [Hnil|(q & r & Hq & Hr & Ht)]; [done|].
    assert (q = p) as -> by congruence. by apply (Hno r).
  - pose proof (run_query_range_query measurement_map datasets first rest
                  start_date end_date σ dataset_name l df Hname Hl Hdf) as Hsim.
    cbn zeta in Hsim. rewrite Hc in Hsim.
    by rewrite (default_range_undated df' p Hp Hno) in Hsim.
Qed.

Lemma undated_frame_raises_witness :
  @range_query sample_pandas dataset_undated
    (PyDate (january_2025 1)) (PyDate (january_2025 3)) = Raise TypeError ∧
  (@run_query sample_pandas (build_measurement_map [("dataset4", dataset_undated)])
     [("dataset4", 0%nat)] ["OvenD"] (PyDate (january_2025 1)) (PyDate (january_2025 3))
     {[ 0%nat := dataset_undated ]}).1
  = Raise ValueError.
Proof.
  apply (@undated_frame_raises sample_pandas
           (build_measurement_map [("dataset4", dataset_undated)])
           [("dataset4", 0%nat)] "OvenD" [] (PyDate (january_2025 1))
           (PyDate (january_2025 3)) {[ 0%nat := dataset_undated ]}
           "dataset4" 0%nat 1%nat dataset_undated dataset_undated).
  - vm_compute. reflexivity.
  - reflexivity.
  - reflexivity.
  - vm_compute. reflexivity.
  - reflexivity.
  - discriminate.
  - intros r Hr. repeat (apply elem_of_cons in Hr as [->|Hr]; [by intros []|]).
    by apply elem_of_nil in Hr.
Defined.
